(** * stock-data-fetch: the caching and merge engine of [web/api.py]

    A shallow embedding of [DataReader] and of the pandas operations it
    relies on, followed by the properties of the reconciliation engine.

    Conventions of the embedding.
    - A calendar date is carried as its ISO text [YYYY-MM-DD], which is what
      [str(ts.date())] yields in the source; the source compares such texts
      with Python's [>] on [str], so the order below is the lexicographic
      order on strings. On ISO texts it is the chronological order that the
      label slices [.ix[:end]] and [.ix[start:]] follow.
    - A cell is an int64 or a float64 scalar; float64 values are IEEE-754
      binary64 numbers ([spec_float]), whose [S754_nan] is pandas' null.
      Vendor columns are numeric, so [astype] itself never raises.
    - A table is a list of dated rows. The pandas operations are rendered
      for date indexes that are increasing and free of duplicates, the
      invariant of the tables the engine reads and writes; dtype changes
      that pandas makes when it aligns two tables are not rendered.
    - The cache directory is a finite map from file name to the table the
      file holds; writing a table and reading it back is the identity.
      pandas parses the text of the file again, which gives back the date
      labels as written but may give back a float cell that differs in its
      last place: [same_dates] relates two states of the directory that
      agree on the dates only, for the property of two calls in a row.
      Creating the directory in [__init__] is left out.
    - Every access to an external collaborator or to the cache directory is
      recorded in a trace, in program order. *)

From Stdlib Require Import ZArith String Ascii List Bool SpecFloat.
From stdpp Require Import base option list gmap strings sorting.

Local Open Scope string_scope.
Local Open Scope list_scope.

(** ** Dates *)

Definition date : Type := string.

(** [a < b] on [str], as Python evaluates it. *)
Definition date_lt (a b : date) : Prop := String.ltb a b = true.
Definition date_le (a b : date) : Prop := String.ltb b a = false.

#[global] Instance date_lt_dec : RelDecision date_lt.
Proof. intros a b; unfold date_lt; apply _. Defined.
#[global] Instance date_le_dec : RelDecision date_le.
Proof. intros a b; unfold date_le; apply _. Defined.

(** ** Scalars *)

Inductive scalar : Type :=
| SInt (z : Z)
| SFloat (f : spec_float).

#[global] Instance spec_float_eq_dec : EqDecision spec_float.
Proof. solve_decision. Defined.
#[global] Instance scalar_eq_dec : EqDecision scalar.
Proof. solve_decision. Defined.

Definition NaN : scalar := SFloat S754_nan.

(** [pd.isnull] on one cell. *)
Definition isnull (x : scalar) : bool :=
  match x with
  | SFloat S754_nan => true
  | _ => false
  end.

(** The dtype test: is the cell held as a float64? *)
Definition is_float64 (x : scalar) : bool :=
  match x with
  | SFloat _ => true
  | SInt _ => false
  end.

(** One cell of [Series.astype(np.float64)]: an int64 is rounded to the
    nearest binary64, a float64 is kept. *)
Definition to_float64 (x : scalar) : scalar :=
  match x with
  | SInt z => SFloat (binary_normalize 53 1024 z 0 false)
  | SFloat f => SFloat f
  end.

Abbreviation Series := (list scalar).

Definition astype_float64 (s : Series) : Series := to_float64 <$> s.

(** ** Exceptions *)

Inductive exn : Type :=
| KeyError (label : string)
| IndexError
| RemoteDataError (msg : string).

Inductive result (A : Type) : Type :=
| Ok (a : A)
| Raise (e : exn).
Arguments Ok {A} a.
Arguments Raise {A} e.

Definition rbind {A B} (m : result A) (k : A -> result B) : result B :=
  match m with
  | Ok a => k a
  | Raise e => Raise e
  end.

(** ** Column names and the origin *)

Definition OpenCol : string := "Open".
Definition CloseCol : string := "Close".
Definition AdjCloseCol : string := "Adj Close".
Definition HighCol : string := "High".
Definition LowCol : string := "Low".
Definition VolumeCol : string := "Volume".

Definition origin : date := "1926-01-01".

(** ** File names of the cache *)

Definition _market_data_filename (source ticker : string) : string :=
  if decide (source = "reference")
  then (ticker ++ ".csv")%string
  else (ticker ++ "." ++ source ++ ".csv")%string.

(** ** Vendor frames

    What [web.DataReader] hands back: a date index and labelled columns, in
    the vendor's order. Every column is as long as the index. *)

Record DataFrame : Type := mkFrame {
  frame_index : list date;
  frame_columns : list (string * Series)
}.

Fixpoint find_column (col : string) (cols : list (string * Series)) : option Series :=
  match cols with
  | [] => None
  | (c, s) :: cols' => if decide (c = col) then Some s else find_column col cols'
  end.

(** [col in df.columns] *)
Definition has_column (df : DataFrame) (col : string) : bool :=
  bool_decide (is_Some (find_column col (frame_columns df))).

(** [df[col]] *)
Definition getitem (df : DataFrame) (col : string) : result Series :=
  match find_column col (frame_columns df) with
  | Some s => Ok s
  | None => Raise (KeyError col)
  end.

Fixpoint set_column (col : string) (s : Series) (cols : list (string * Series))
  : list (string * Series) :=
  match cols with
  | [] => [(col, s)]
  | (c, v) :: cols' =>
      if decide (c = col) then (c, s) :: cols' else (c, v) :: set_column col s cols'
  end.

(** [df[col] = s]: replaces the column, or appends it after the others. *)
Definition setitem (df : DataFrame) (col : string) (s : Series) : DataFrame :=
  mkFrame (frame_index df) (set_column col s (frame_columns df)).

(** Every column is as long as the index. *)
Definition frame_wf (df : DataFrame) : Prop :=
  Forall (fun cs => length cs.2 = length (frame_index df)) (frame_columns df).

(** ** Time series tables

    The six-column frames the engine works on, row by row. *)

Record Row : Type := mkRow {
  Open : scalar;
  High : scalar;
  Low : scalar;
  Close : scalar;
  AdjClose : scalar;
  Volume : scalar
}.

#[global] Instance Row_eq_dec : EqDecision Row.
Proof. solve_decision. Defined.

Abbreviation Table := (list (date * Row)).

(** [df.index] *)
Definition index (df : Table) : list date := df.*1.

Fixpoint zip_rows (idx : list date) (o h l c a v : Series) : Table :=
  match idx, o, h, l, c, a, v with
  | d :: idx', x1 :: o', x2 :: h', x3 :: l', x4 :: c', x5 :: a', x6 :: v' =>
      (d, mkRow x1 x2 x3 x4 x5 x6) :: zip_rows idx' o' h' l' c' a' v'
  | _, _, _, _, _, _, _ => []
  end.

(** [df[[Open, High, Low, Close, Adj Close, Volume]]]: the six columns, looked
    up by label in this order, whatever else the frame holds. *)
Definition select_columns (df : DataFrame) : result Table :=
  rbind (getitem df OpenCol) (fun o =>
  rbind (getitem df HighCol) (fun h =>
  rbind (getitem df LowCol) (fun l =>
  rbind (getitem df CloseCol) (fun c =>
  rbind (getitem df AdjCloseCol) (fun a =>
  rbind (getitem df VolumeCol) (fun v =>
  Ok (zip_rows (frame_index df) o h l c a v))))))).

(** The body of [_fetch_web_data] after the vendor has answered. Each
    [astype] builds a new series that the source drops; its only trace is
    the [KeyError] of the lookup before it. *)
Definition normalize (web_df : DataFrame) : result Table :=
  rbind (getitem web_df OpenCol) (fun s => let _ := astype_float64 s in
  rbind (getitem web_df CloseCol) (fun s => let _ := astype_float64 s in
  rbind (getitem web_df HighCol) (fun s => let _ := astype_float64 s in
  rbind (getitem web_df LowCol) (fun s => let _ := astype_float64 s in
  rbind (getitem web_df VolumeCol) (fun s => let _ := astype_float64 s in
  rbind (if has_column web_df AdjCloseCol
         then rbind (getitem web_df AdjCloseCol) (fun s =>
              let _ := astype_float64 s in Ok web_df)
         else rbind (getitem web_df CloseCol) (fun s =>
              Ok (setitem web_df AdjCloseCol s)))
        (fun web_df => select_columns web_df)))))).

(** ** pandas operations on tables *)

(** [df.index[-1]], an [IndexError] on an empty table. *)
Definition index_last (df : Table) : result date :=
  match last (index df) with
  | Some d => Ok d
  | None => Raise IndexError
  end.

(** [df.ix[:stop]] on a date index: the rows dated [stop] or before. *)
Definition ix_to (stop : date) (df : Table) : Table :=
  filter (fun r => date_le r.1 stop) df.

(** [df.ix[start:]]: the rows dated [start] or after. *)
Definition ix_from (start : date) (df : Table) : Table :=
  filter (fun r => date_le start r.1) df.

(** The row labelled [d], the first one if the label repeats. *)
Fixpoint loc (df : Table) (d : date) : option Row :=
  match df with
  | [] => None
  | (d', r) :: df' => if decide (d' = d) then Some r else loc df' d
  end.

Definition nan_row : Row := mkRow NaN NaN NaN NaN NaN NaN.

(** A row of [df.reindex(idx)]: labels the table lacks get null cells. *)
Definition reindexed (df : Table) (d : date) : Row := default nan_row (loc df d).

(** Sorted insertion of a label that skips a label already there. *)
Fixpoint insert_date (d : date) (l : list date) : list date :=
  match l with
  | [] => [d]
  | x :: l' =>
      if decide (date_lt d x) then d :: x :: l'
      else if decide (date_lt x d) then x :: insert_date d l'
      else x :: l'
  end.

(** The outer join of two date indexes: their sorted union. *)
Definition outer_join (a b : list date) : list date :=
  foldr insert_date [] (a ++ b).

(** [where(isnull(x), y, x)] on one cell. *)
Definition combiner (x y : scalar) : scalar := if isnull x then y else x.

Definition combine_row (x y : Row) : Row :=
  mkRow (combiner (Open x) (Open y)) (combiner (High x) (High y))
        (combiner (Low x) (Low y)) (combiner (Close x) (Close y))
        (combiner (AdjClose x) (AdjClose y)) (combiner (Volume x) (Volume y)).

(** [self.combine_first(other)]: both tables are aligned on the outer join
    of their indexes, then every null cell of [self] is taken from [other]. *)
Definition combine_first (self other : Table) : Table :=
  (fun d => (d, combine_row (reindexed self d) (reindexed other d)))
    <$> outer_join (index self) (index other).

(** [df.ix[label, "Adj Close"] = v] for a label of the index: every row
    carrying the label is assigned. *)
Definition set_adj_close (label : date) (v : scalar) (df : Table) : Table :=
  (fun r => if decide (r.1 = label)
            then (r.1, mkRow (Open r.2) (High r.2) (Low r.2) (Close r.2) v (Volume r.2))
            else r) <$> df.

(** The six columns, and [df.ix[d, c]] where the label exists. *)
Inductive column : Type :=
| ColOpen | ColHigh | ColLow | ColClose | ColAdjClose | ColVolume.

Definition cell (c : column) (r : Row) : scalar :=
  match c with
  | ColOpen => Open r
  | ColHigh => High r
  | ColLow => Low r
  | ColClose => Close r
  | ColAdjClose => AdjClose r
  | ColVolume => Volume r
  end.

Definition value_at (df : Table) (d : date) (c : column) : option scalar :=
  cell c <$> loc df d.

(** The invariant of a time series table: dates strictly increasing. *)
Definition sorted_unique (df : Table) : Prop := StronglySorted date_lt (index df).

(** ** The world of one reader: cache directory and trace *)

Inductive event : Type :=
| EvFetch (ticker source : string) (start stop : date)
| EvReadFile (name : string)
| EvWriteFile (name : string)
| EvQuote (ticker : string).

#[global] Instance event_eq_dec : EqDecision event.
Proof. solve_decision. Defined.

Record world : Type := mkWorld {
  files : gmap string Table;
  trace : list event
}.

Definition log (e : event) (w : world) : world :=
  mkWorld (files w) (trace w ++ [e]).

(** Computations that read and write the world and may raise. What was
    written before an exception stays written. *)
Definition M (A : Type) : Type := world -> result A * world.

Definition ret {A} (a : A) : M A := fun w => (Ok a, w).
Definition bind {A B} (m : M A) (k : A -> M B) : M B :=
  fun w => match m w with
           | (Ok a, w') => k a w'
           | (Raise e, w') => (Raise e, w')
           end.
Definition lift {A} (r : result A) : M A := fun w => (r, w).

Declare Scope reader_scope.
Delimit Scope reader_scope with reader.
Notation "'do' x <- m ; k" := (bind m (fun x => k))
  (at level 10, x name, m at level 100, k at level 200) : reader_scope.
Notation "m ;; k" := (bind m (fun _ => k))
  (at level 100, k at level 200, right associativity) : reader_scope.

Definition is_fetch (e : event) : bool :=
  match e with
  | EvFetch _ _ _ _ => true
  | _ => false
  end.

(** The remote fetches of a trace, in order. *)
Definition fetches (t : list event) : list event :=
  filter (fun e => is_fetch e = true) t.

Definition is_file_access (e : event) : bool :=
  match e with
  | EvReadFile _ | EvWriteFile _ => true
  | _ => false
  end.

(** The cache files a trace reads or writes, in order. *)
Definition file_accesses (t : list event) : list event :=
  filter (fun e => is_file_access e = true) t.

(** ** The reader *)

(** The options of [DataReader.__init__]; the cache directory is the
    [files] component of the world. *)
Record DataReader : Type := mkReader {
  enable_cache : bool;
  use_reference : bool
}.

Section Engine.

(** The external collaborators: the vendor behind [web.DataReader], the
    live quote source (a quote is the date of its timestamp and a price)
    and the clock behind [_today]. *)
Variable web_DataReader : string -> string -> date -> date -> result DataFrame.
Variable fetch_live_quote : string -> option (date * scalar).
Variable _today : date.

Local Open Scope reader_scope.

Definition _read_cache (ticker source : string) : M (option Table) :=
  fun w =>
    let filepath := _market_data_filename source ticker in
    match files w !! filepath with
    | None => (Ok None, w)
    | Some df => (Ok (Some df), log (EvReadFile filepath) w)
    end.

Definition _fetch_web_data (ticker source : string) (start stop : date) : M Table :=
  fun w =>
    (rbind (web_DataReader ticker source start stop) normalize,
     log (EvFetch ticker source start stop) w).

(** The test [cache_end > end] of the source is [date_lt stop cache_end]. *)
Definition _read_raw_data (self : DataReader) (ticker source : string)
    (start stop : date) : M Table :=
  if negb (enable_cache self) then _fetch_web_data ticker source start stop
  else
    do cache <- _read_cache ticker source;
    match cache with
    | None => _fetch_web_data ticker source start stop
    | Some cache_df =>
        do cache_end <- lift (index_last cache_df);
        if decide (date_lt stop cache_end) then ret (ix_to stop cache_df)
        else
          do web_df <- _fetch_web_data ticker source cache_end stop;
          ret (combine_first web_df cache_df)
    end.

Definition _save_raw_data (ticker source : string) (df : Table) : M unit :=
  fun w =>
    let filename := _market_data_filename source ticker in
    (Ok tt, log (EvWriteFile filename) (mkWorld (<[filename := df]> (files w)) (trace w))).

Definition _combine_ref_and_raw_data (ref_df : option Table) (raw_df : Table)
    : result Table :=
  match ref_df with
  | None => Ok raw_df
  | Some ref_df =>
      rbind (index_last ref_df) (fun ref_end =>
      Ok (combine_first ref_df (ix_from ref_end raw_df)))
  end.

(** The source updates [df] in place; here the updated table is returned.
    The object has no other use: [read] is done with [raw_df], its only
    other name, and the cache files hold what was written earlier. *)
Definition _update_with_live_quote (ticker : string) (df : Table) : M Table :=
  fun w =>
    let w := log (EvQuote ticker) w in
    match fetch_live_quote ticker with
    | None => (Ok df, w)
    | Some (quote_date, quote_value) =>
        match index_last df with
        | Raise e => (Raise e, w)
        | Ok last_date =>
            if decide (last_date = quote_date)
            then (Ok (set_adj_close quote_date quote_value df), w)
            else (Ok df, w)
        end
    end.

(** [end or today]: [None] and the empty string both give way to today. *)
Definition end_or_today (stop : option date) : date :=
  match stop with
  | None => _today
  | Some s => if decide (s = "") then _today else s
  end.

Definition read (self : DataReader) (ticker source : string) (stop : option date)
    : M Table :=
  let today := _today in
  let stop := end_or_today stop in
  do raw_df <- _read_raw_data self ticker source origin stop;
  _save_raw_data ticker source raw_df;;
  do df <- (if use_reference self
            then do ref_df <- _read_cache ticker "reference";
                 lift (_combine_ref_and_raw_data ref_df raw_df)
            else ret raw_df);
  do df <- (if decide (stop = today)
            then _update_with_live_quote ticker df
            else ret df);
  _save_raw_data ticker "reference" df;;
  ret df.

(** Steps 1 and 2 of [read] for the effective end date [stop]: the table
    the call holds when it reaches the live overlay. *)
Definition working_table (self : DataReader) (ticker source : string) (stop : date)
    : M Table :=
  do raw_df <- _read_raw_data self ticker source origin stop;
  _save_raw_data ticker source raw_df;;
  if use_reference self
  then do ref_df <- _read_cache ticker "reference";
       lift (_combine_ref_and_raw_data ref_df raw_df)
  else ret raw_df.

Definition data_reader (ticker source : string) (stop : option date)
    (enable_cache use_reference : bool) : M Table :=
  read (mkReader enable_cache use_reference) ticker source stop.

End Engine.

(** A computation that leaves an observation of the world as it found it. *)
Definition keeps {A B} (obs : world -> B) (m : M A) : Prop :=
  forall w, obs (m w).2 = obs w.

(** A computation that never calls the vendor. *)
Definition no_fetch {A} (m : M A) : Prop :=
  keeps (fun w => fetches (trace w)) m.

(** A computation that leaves the file [name] as it found it. *)
Definition keeps_file {A} (name : string) (m : M A) : Prop :=
  keeps (fun w => files w !! name) m.

(** ** Sample data

    A small vendor in the manner of the repository's test double
    [web_reader]: it serves the rows of one series between [start] and
    [stop], as a frame in the vendor's own column order. *)

Module Sample.

Definition px (z : Z) : scalar := SFloat (binary_normalize 53 1024 z 0 false).

Definition row (o h l c a : Z) (v : scalar) : Row :=
  mkRow (px o) (px h) (px l) (px c) (px a) v.

(** Four trading days of "GOOG"; the volume is a float64 here. *)
Definition goog : Table :=
  [ ("2017-08-31", row 931 941 929 939 939 (px 1582600));
    ("2017-09-01", row 941 942 935 937 937 (px 947400));
    ("2017-11-01", row 1017 1029 1016 1025 1025 (px 1373400));
    ("2017-11-02", row 1021 1028 1017 1025 1025 (px 1048970)) ].

(** Two days with the volume as an int64, which is how a vendor sends
    share counts. *)
Definition goog_int64 : Table :=
  [ ("2017-08-31", row 931 941 929 939 939 (SInt 1582600));
    ("2017-09-01", row 941 942 935 937 937 (SInt 947400)) ].

(** A table as a vendor frame: Adj Close last but one, as Yahoo has it. *)
Definition to_frame (t : Table) : DataFrame :=
  mkFrame (index t)
    [ (OpenCol, (fun r => Open r.2) <$> t);
      (HighCol, (fun r => High r.2) <$> t);
      (LowCol, (fun r => Low r.2) <$> t);
      (CloseCol, (fun r => Close r.2) <$> t);
      (VolumeCol, (fun r => Volume r.2) <$> t);
      (AdjCloseCol, (fun r => AdjClose r.2) <$> t) ].

(** The same without the Adj Close column, as Google has it. *)
Definition to_frame_no_adj (t : Table) : DataFrame :=
  mkFrame (index t)
    [ (OpenCol, (fun r => Open r.2) <$> t);
      (HighCol, (fun r => High r.2) <$> t);
      (LowCol, (fun r => Low r.2) <$> t);
      (CloseCol, (fun r => Close r.2) <$> t);
      (VolumeCol, (fun r => Volume r.2) <$> t) ].

Definition vendor (ticker source : string) (start stop : date) : result DataFrame :=
  if decide (ticker = "GOOG")
  then Ok (to_frame (ix_to stop (ix_from start goog)))
  else Raise (RemoteDataError ticker).

(** A curated reference up to 2017-09-01 whose adjusted closes differ
    from the vendor's. *)
Definition goog_ref : Table :=
  [ ("2017-08-31", row 931 941 929 939 938 (px 1582600));
    ("2017-09-01", row 941 942 935 937 936 (px 947400)) ].

Definition no_quote (ticker : string) : option (date * scalar) := None.

Definition quote_on (d : date) (p : Z) (ticker : string) : option (date * scalar) :=
  Some (d, px p).

Definition empty_world : world := mkWorld ∅ [].

Definition caching : DataReader := mkReader true false.

Definition with_reference : DataReader := mkReader true true.

Definition bypassing : DataReader := mkReader false false.

Definition bypassing_with_reference : DataReader := mkReader false true.

(** A cache directory holding [df] under one file name. *)
Definition world_with (name : string) (df : Table) : world :=
  mkWorld {[ name := df ]} [].

End Sample.

(** ** Observations used by the further properties *)

(** The columns [_fetch_web_data] reads before it looks for Adj Close, in
    the order in which the source reads them. *)
Definition mandatory_columns : list string :=
  [OpenCol; CloseCol; HighCol; LowCol; VolumeCol].

(** The six columns of the returned table. *)
Definition selected_columns : list string :=
  [OpenCol; HighCol; LowCol; CloseCol; AdjCloseCol; VolumeCol].

(** The first mandatory column that a frame lacks. *)
Definition first_missing (df : DataFrame) : option string :=
  snd <$> list_find (fun c => find_column c (frame_columns df) = None) mandatory_columns.

Definition is_quote (e : event) : bool :=
  match e with
  | EvQuote _ => true
  | _ => false
  end.

(** The live quote requests of a trace, in order. *)
Definition quotes (t : list event) : list event :=
  filter (fun e => is_quote e = true) t.

(** A computation that keeps a property of the world, whatever its outcome,
    and whose result, when there is one, has a property of its own. *)
Definition ensures {A} (P : world -> Prop) (Q : A -> Prop) (m : M A) : Prop :=
  forall w, P w -> P (m w).2 /\ forall a, (m w).1 = Ok a -> Q a.

(** Every table of the cache directory has strictly increasing dates. *)
Definition cache_sorted (w : world) : Prop :=
  forall name t, files w !! name = Some t -> sorted_unique t.

(** Two states of the cache directory whose files carry the same dates
    and whose traces agree; the cells of the tables are free. This is what
    is known of a file that pandas parses again after [to_csv]: the date
    labels come back as written, a float cell need not. *)
Definition same_dates (w w' : world) : Prop :=
  trace w' = trace w /\ index <$> files w' = index <$> files w.

(** * Properties *)

(** ** The order on dates *)

Section DateOrder.

Lemma ascii_compare_refl (c : ascii) : Ascii.compare c c = Eq.
Proof. unfold Ascii.compare. apply N.compare_refl. Qed.

Lemma ascii_compare_lt_trans (a b c : ascii) :
  Ascii.compare a b = Lt -> Ascii.compare b c = Lt -> Ascii.compare a c = Lt.
Proof.
  unfold Ascii.compare. rewrite !N.compare_lt_iff. apply N.lt_trans.
Qed.

Lemma string_compare_refl (s : string) : String.compare s s = Eq.
Proof.
  induction s as [|c s IH]; simpl; [reflexivity|].
  now rewrite ascii_compare_refl.
Qed.

Lemma string_compare_lt_trans (a b c : string) :
  String.compare a b = Lt -> String.compare b c = Lt -> String.compare a c = Lt.
Proof.
  revert b c. induction a as [|x a IH]; intros [|y b] [|z c]; simpl; try congruence.
  destruct (Ascii.compare x y) eqn:Hxy; try discriminate.
  - apply Ascii.compare_eq_iff in Hxy as ->.
    destruct (Ascii.compare y z); try congruence. apply IH.
  - intros _. destruct (Ascii.compare y z) eqn:Hyz; try discriminate.
    + apply Ascii.compare_eq_iff in Hyz as <-. now rewrite Hxy.
    + intros _. now rewrite (ascii_compare_lt_trans x y z).
Qed.

Lemma date_lt_irrefl (a : date) : ~ date_lt a a.
Proof. unfold date_lt, String.ltb. now rewrite string_compare_refl. Qed.

Lemma date_lt_trans (a b c : date) : date_lt a b -> date_lt b c -> date_lt a c.
Proof.
  unfold date_lt, String.ltb. intros Hab Hbc.
  destruct (String.compare a b) eqn:E1; try discriminate.
  destruct (String.compare b c) eqn:E2; try discriminate.
  now rewrite (string_compare_lt_trans a b c).
Qed.

Lemma date_lt_trichotomy (a b : date) : date_lt a b \/ a = b \/ date_lt b a.
Proof.
  unfold date_lt, String.ltb. rewrite (String.compare_antisym b a).
  destruct (String.compare a b) eqn:E; simpl; auto.
  right; left. now apply String.compare_eq_iff.
Qed.

Lemma date_le_not_lt (a b : date) : date_le a b <-> ~ date_lt b a.
Proof. unfold date_le, date_lt. destruct (String.ltb b a); split; congruence. Qed.

Lemma date_le_lt_eq (a b : date) : date_le a b <-> date_lt a b \/ a = b.
Proof.
  rewrite date_le_not_lt. split.
  - intros H. destruct (date_lt_trichotomy a b) as [?|[?|?]]; tauto.
  - intros [H| ->] H'; [|now apply date_lt_irrefl in H'].
    eapply date_lt_irrefl, date_lt_trans; eassumption.
Qed.

Lemma date_le_refl (a : date) : date_le a a.
Proof. apply date_le_lt_eq; auto. Qed.

Lemma date_lt_le (a b : date) : date_lt a b -> date_le a b.
Proof. intros; apply date_le_lt_eq; auto. Qed.

Lemma date_le_total (a b : date) : date_le a b \/ date_le b a.
Proof.
  rewrite !date_le_lt_eq. destruct (date_lt_trichotomy a b) as [?|[?|?]]; auto.
Qed.

Lemma date_le_trans (a b c : date) : date_le a b -> date_le b c -> date_le a c.
Proof.
  rewrite !date_le_lt_eq. intros [H1| ->] [H2| ->]; auto.
  left. eapply date_lt_trans; eassumption.
Qed.

#[global] Instance date_lt_strict : StrictOrder date_lt.
Proof.
  split; [intros a; apply date_lt_irrefl | intros a b c; apply date_lt_trans].
Qed.

End DateOrder.

(** ** File names *)

(** C10: the map from cache key (ticker, source) to file name is not
    injective. Ticker "A.b" under the reference source and ticker "A" under
    source "b" are distinct keys with the one file name "A.b.csv", and a
    table written under the second key is what a read under the first key
    finds, whatever had been stored under the first key before. *)
Theorem filename_not_injective :
  ("A.b", "reference") <> ("A", "b") /\
  _market_data_filename "reference" "A.b" = "A.b.csv" /\
  _market_data_filename "b" "A" = "A.b.csv" /\
  forall (w : world) (old new : Table),
    let w1 := (_save_raw_data "A.b" "reference" old w).2 in
    let w2 := (_save_raw_data "A" "b" new w1).2 in
    (_read_cache "A.b" "reference" w2).1 = Ok (Some new).
Proof.
  split; [discriminate|]. split; [reflexivity|]. split; [reflexivity|].
  intros w old new. cbn.
  unfold _read_cache, _save_raw_data. cbn.
  change (_market_data_filename "reference" "A.b") with "A.b.csv".
  change (_market_data_filename "b" "A") with "A.b.csv".
  now rewrite lookup_insert_eq.
Qed.

(** ** Normalization of vendor frames *)

Section Normalize.

Lemma find_set_column (col col' : string) (s : Series) cols :
  find_column col' (set_column col s cols) =
  if decide (col' = col) then Some s else find_column col' cols.
Proof.
  induction cols as [|[c v] cols IH]; simpl.
  - repeat case_decide; congruence.
  - repeat (case_decide; simpl); try congruence.
Qed.

Lemma find_column_wf (df : DataFrame) (col : string) (s : Series) :
  frame_wf df -> find_column col (frame_columns df) = Some s ->
  length s = length (frame_index df).
Proof.
  unfold frame_wf. generalize (frame_index df) as idx.
  induction (frame_columns df) as [|[c v] cols IH]; simpl; intros idx Hwf Hf.
  - discriminate.
  - inversion Hwf; subst. case_decide; [now inversion Hf; subst|]. eauto.
Qed.

Lemma zip_rows_columns (idx : list date) (o h l c a v : Series) :
  length o = length idx -> length h = length idx -> length l = length idx ->
  length c = length idx -> length a = length idx -> length v = length idx ->
  let t := zip_rows idx o h l c a v in
  index t = idx /\
  (fun r => Open r.2) <$> t = o /\ (fun r => High r.2) <$> t = h /\
  (fun r => Low r.2) <$> t = l /\ (fun r => Close r.2) <$> t = c /\
  (fun r => AdjClose r.2) <$> t = a /\ (fun r => Volume r.2) <$> t = v.
Proof.
  revert o h l c a v.
  induction idx as [|d idx IH];
    intros [|x1 o] [|x2 h] [|x3 l] [|x4 c] [|x5 a] [|x6 v]; cbn [length zip_rows];
    try discriminate; try (intros; repeat split; reflexivity).
  intros H1 H2 H3 H4 H5 H6.
  destruct (IH o h l c a v) as (E0 & E1 & E2 & E3 & E4 & E5 & E6); try congruence.
  cbn zeta in *. unfold index in *. rewrite !fmap_cons.
  cbn [fst snd Open High Low Close AdjClose Volume].
  rewrite E0, E1, E2, E3, E4, E5, E6. repeat split.
Qed.

(** What [normalize] returns on a frame that has the five mandatory
    columns: the vendor's cells as they came, with Close standing in for
    a missing Adj Close. No cell is converted. *)
Lemma normalize_spec (df : DataFrame) (o h l c v : Series) :
  find_column OpenCol (frame_columns df) = Some o ->
  find_column HighCol (frame_columns df) = Some h ->
  find_column LowCol (frame_columns df) = Some l ->
  find_column CloseCol (frame_columns df) = Some c ->
  find_column VolumeCol (frame_columns df) = Some v ->
  normalize df =
  Ok (zip_rows (frame_index df) o h l c
        (default c (find_column AdjCloseCol (frame_columns df))) v).
Proof.
  intros Ho Hh Hl Hc Hv. unfold normalize, getitem, has_column.
  rewrite Ho, Hh, Hl, Hc, Hv. cbn [rbind].
  destruct (find_column AdjCloseCol (frame_columns df)) as [a|] eqn:Ha.
  - rewrite bool_decide_eq_true_2 by eauto. cbn [rbind].
    unfold select_columns, getitem. now rewrite Ho, Hh, Hl, Hc, Ha, Hv.
  - rewrite bool_decide_eq_false_2 by (intros [? ?]; discriminate). cbn [rbind].
    unfold select_columns, getitem, setitem. cbn [frame_columns frame_index].
    rewrite !find_set_column, Ho, Hh, Hl, Hc, Hv. reflexivity.
Qed.

End Normalize.

(** C6: when the vendor's frame has no Adj Close column (and has the five
    columns the adapter reads), the fetch returns a table over the vendor's
    index whose Adj Close column is, row for row, its Close column, which is
    the vendor's Close column. *)
Theorem adj_close_defaults_to_close
    (web_DataReader : string -> string -> date -> date -> result DataFrame)
    (ticker source : string) (start stop : date) (w : world)
    (web_df : DataFrame) (o h l c v : Series) :
  web_DataReader ticker source start stop = Ok web_df ->
  frame_wf web_df ->
  has_column web_df AdjCloseCol = false ->
  find_column OpenCol (frame_columns web_df) = Some o ->
  find_column HighCol (frame_columns web_df) = Some h ->
  find_column LowCol (frame_columns web_df) = Some l ->
  find_column CloseCol (frame_columns web_df) = Some c ->
  find_column VolumeCol (frame_columns web_df) = Some v ->
  exists t : Table,
    (_fetch_web_data web_DataReader ticker source start stop w).1 = Ok t /\
    index t = frame_index web_df /\
    (fun r => Close r.2) <$> t = c /\
    (fun r => AdjClose r.2) <$> t = (fun r => Close r.2) <$> t.
Proof.
  intros Hweb Hwf Hadj Ho Hh Hl Hc Hv.
  unfold _fetch_web_data. cbn [fst]. rewrite Hweb. cbn [rbind].
  rewrite (normalize_spec web_df o h l c v) by assumption.
  unfold has_column in Hadj. apply bool_decide_eq_false in Hadj.
  destruct (find_column AdjCloseCol (frame_columns web_df)) eqn:Ha;
    [exfalso; apply Hadj; eauto|]. cbn [default].
  eexists; split; [reflexivity|].
  destruct (zip_rows_columns (frame_index web_df) o h l c c v)
    as (E0 & _ & _ & _ & E4 & E5 & _);
    eauto using find_column_wf.
  cbn zeta in *. rewrite E0, E4, E5. auto.
Qed.

Lemma adj_close_defaults_to_close_witness :
  exists t : Table,
    (_fetch_web_data (fun _ _ _ _ => Ok (Sample.to_frame_no_adj Sample.goog))
       "GOOG" "google" origin "2017-11-02" Sample.empty_world).1 = Ok t /\
    index t = index Sample.goog /\
    (fun r => Close r.2) <$> t = (fun r => Close r.2) <$> Sample.goog /\
    (fun r => AdjClose r.2) <$> t = (fun r => Close r.2) <$> t.
Proof.
  apply (adj_close_defaults_to_close
           (fun _ _ _ _ => Ok (Sample.to_frame_no_adj Sample.goog))
           "GOOG" "google" origin "2017-11-02" Sample.empty_world
           (Sample.to_frame_no_adj Sample.goog)
           ((fun r => Open r.2) <$> Sample.goog) ((fun r => High r.2) <$> Sample.goog)
           ((fun r => Low r.2) <$> Sample.goog) ((fun r => Close r.2) <$> Sample.goog)
           ((fun r => Volume r.2) <$> Sample.goog)).
  - reflexivity.
  - repeat constructor.
  - reflexivity.
  - reflexivity.
  - reflexivity.
  - reflexivity.
  - reflexivity.
  - reflexivity.
Defined.

(** C5 (first half fails on the code): on a vendor frame whose Volume column
    is int64 the adapter returns the Volume cells as int64. The [astype]
    calls of [_fetch_web_data] build converted series and drop them, so the
    returned table holds the vendor's cells, not float64 casts of them. *)
Theorem volume_is_not_cast :
  (_fetch_web_data (fun _ _ _ _ => Ok (Sample.to_frame Sample.goog_int64))
     "GOOG" "yahoo" origin "2017-09-01" Sample.empty_world).1
  = Ok Sample.goog_int64 /\
  (fun r => Volume r.2) <$> Sample.goog_int64 = [SInt 1582600; SInt 947400] /\
  (fun r => is_float64 (Volume r.2)) <$> Sample.goog_int64 = [false; false] /\
  is_float64 <$> astype_float64 [SInt 1582600; SInt 947400] = [true; true].
Proof. repeat split. Qed.

(** ** Tables: lookup, outer join, combine_first *)

Section Tables.

Implicit Types (df self other : Table) (d : date) (r : Row).

Lemma loc_is_Some df d : is_Some (loc df d) <-> d ∈ index df.
Proof.
  unfold index. induction df as [|[d' r] df IH]; simpl.
  - split; [intros [? ?]; discriminate | intros H; inversion H].
  - rewrite elem_of_cons. case_decide; subst.
    + split; eauto.
    + rewrite IH. simpl. split; [auto | intros [?|?]; [congruence | assumption]].
Qed.

Lemma loc_None df d : loc df d = None <-> d ∉ index df.
Proof. rewrite <- loc_is_Some, eq_None_not_Some. tauto. Qed.

Lemma loc_filter (P : date -> Prop) `{!forall x, Decision (P x)} df d :
  P d -> loc (filter (fun x => P x.1) df) d = loc df d.
Proof.
  intros HP. induction df as [|[d' r] df IH]; [reflexivity|].
  rewrite filter_cons. simpl. case_decide as HP'; simpl.
  - case_decide; auto.
  - case_decide; subst; [contradiction | auto].
Qed.

Lemma index_filter (P : date -> Prop) `{!forall x, Decision (P x)} df :
  index (filter (fun x => P x.1) df) = filter P (index df).
Proof.
  unfold index. induction df as [|[d r] df IH]; [reflexivity|].
  rewrite filter_cons, fmap_cons, filter_cons. cbn [fst].
  case_decide; [rewrite fmap_cons|]; now rewrite IH.
Qed.

Lemma loc_filter_out (P : date -> Prop) `{!forall x, Decision (P x)} df d :
  ~ P d -> loc (filter (fun x => P x.1) df) d = None.
Proof.
  intros HP. apply loc_None. rewrite index_filter, list_elem_of_filter. tauto.
Qed.

Lemma index_ix_to (stop : date) df :
  index (ix_to stop df) = filter (fun d => date_le d stop) (index df).
Proof. unfold ix_to. exact (index_filter (fun d => date_le d stop) df). Qed.

Lemma index_ix_from (start : date) df :
  index (ix_from start df) = filter (date_le start) (index df).
Proof. unfold ix_from. exact (index_filter (date_le start) df). Qed.

Lemma loc_ix_to (stop : date) df d :
  loc (ix_to stop df) d = if decide (date_le d stop) then loc df d else None.
Proof.
  unfold ix_to. case_decide as H.
  - exact (loc_filter (fun d => date_le d stop) df d H).
  - exact (loc_filter_out (fun d => date_le d stop) df d H).
Qed.

Lemma loc_ix_from (start : date) df d :
  loc (ix_from start df) d = if decide (date_le start d) then loc df d else None.
Proof.
  unfold ix_from. case_decide as H.
  - exact (loc_filter (date_le start) df d H).
  - exact (loc_filter_out (date_le start) df d H).
Qed.

Lemma loc_fmap_index (f : date -> Row) (l : list date) d :
  d ∈ l -> loc ((fun x => (x, f x)) <$> l) d = Some (f d).
Proof.
  induction l as [|x l IH]; [intros H; inversion H|].
  rewrite elem_of_cons, fmap_cons. simpl. intros [->|H].
  - now rewrite decide_True.
  - case_decide; subst; auto.
Qed.

Lemma elem_of_insert_date d x (l : list date) :
  x ∈ insert_date d l <-> x = d \/ x ∈ l.
Proof.
  induction l as [|y l IH]; simpl.
  - rewrite list_elem_of_singleton, elem_of_nil. tauto.
  - repeat case_decide.
    + apply elem_of_cons.
    + rewrite elem_of_cons, IH, elem_of_cons. tauto.
    + destruct (date_lt_trichotomy d y) as [?|[->|?]]; try contradiction.
      rewrite elem_of_cons. tauto.
Qed.

Lemma elem_of_outer_join (a b : list date) x :
  x ∈ outer_join a b <-> x ∈ a \/ x ∈ b.
Proof.
  unfold outer_join. rewrite <- elem_of_app.
  induction (a ++ b) as [|y l IH]; simpl.
  - reflexivity.
  - rewrite elem_of_insert_date, IH, elem_of_cons. tauto.
Qed.

Lemma insert_date_sorted d (l : list date) :
  StronglySorted date_lt l -> StronglySorted date_lt (insert_date d l).
Proof.
  induction l as [|y l IH]; simpl; intros Hs.
  - repeat constructor.
  - apply StronglySorted_inv in Hs as [Hs Hy].
    repeat case_decide.
    + constructor; [now constructor|]. constructor; [assumption|].
      eapply Forall_impl; [exact Hy|]. intros z Hz. eapply date_lt_trans; eauto.
    + constructor; [auto|]. apply Forall_forall. intros z Hz.
      apply elem_of_insert_date in Hz as [->|Hz]; [assumption|].
      rewrite Forall_forall in Hy. auto.
    + now constructor.
Qed.

Lemma outer_join_sorted (a b : list date) :
  StronglySorted date_lt (outer_join a b).
Proof.
  unfold outer_join. induction (a ++ b) as [|y l IH]; simpl.
  - constructor.
  - now apply insert_date_sorted.
Qed.

Lemma index_combine_first self other :
  index (combine_first self other) = outer_join (index self) (index other).
Proof.
  unfold combine_first, index at 1. rewrite <- list_fmap_compose.
  now rewrite list_fmap_id.
Qed.

Lemma loc_combine_first self other d :
  d ∈ index self \/ d ∈ index other ->
  loc (combine_first self other) d
  = Some (combine_row (reindexed self d) (reindexed other d)).
Proof.
  intros H. unfold combine_first.
  apply (loc_fmap_index (fun x => combine_row (reindexed self x) (reindexed other x))).
  now apply elem_of_outer_join.
Qed.

Lemma isnull_NaN (x : scalar) : isnull x = true -> x = NaN.
Proof. destruct x as [z|[]]; simpl; try discriminate; reflexivity. Qed.

Lemma combiner_notnull (x y : scalar) : isnull x = false -> combiner x y = x.
Proof. unfold combiner. now intros ->. Qed.

Lemma combiner_nan_r (x : scalar) : combiner x NaN = x.
Proof.
  unfold combiner. destruct (isnull x) eqn:E; [|reflexivity].
  symmetry. now apply isnull_NaN.
Qed.

Lemma combiner_idem (x : scalar) : combiner x x = x.
Proof. unfold combiner. now destruct (isnull x). Qed.

Lemma combine_row_nan_l r : combine_row nan_row r = r.
Proof. now destruct r. Qed.

Lemma combine_row_nan_r r : combine_row r nan_row = r.
Proof.
  destruct r. unfold combine_row, nan_row. simpl. now rewrite !combiner_nan_r.
Qed.

Lemma combine_row_idem r : combine_row r r = r.
Proof. destruct r. unfold combine_row. simpl. now rewrite !combiner_idem. Qed.

Lemma cell_combine_row (c : column) (x y : Row) :
  cell c (combine_row x y) = combiner (cell c x) (cell c y).
Proof. now destruct c. Qed.

Lemma index_last_elem_of df d : index_last df = Ok d -> d ∈ index df.
Proof.
  unfold index_last. destruct (last (index df)) as [x|] eqn:E; [|discriminate].
  intros [= ->]. apply last_Some in E as [l ->].
  rewrite elem_of_app, list_elem_of_singleton. auto.
Qed.

End Tables.

(** ** The reference overlay *)

(** Every non-null cell of the reference table is in the combined table. *)
Lemma reference_keeps_cells (ref_df raw_df : Table) (Dr : date) :
  index_last ref_df = Ok Dr ->
  exists df : Table,
    _combine_ref_and_raw_data (Some ref_df) raw_df = Ok df /\
    forall d c v, value_at ref_df d c = Some v -> isnull v = false ->
                  value_at df d c = Some v.
Proof.
  intros Hlast. unfold _combine_ref_and_raw_data. rewrite Hlast. cbn [rbind].
  eexists; split; [reflexivity|].
  intros d c v Hv Hn. unfold value_at in *.
  destruct (loc ref_df d) as [r|] eqn:Hr; [|discriminate].
  rewrite loc_combine_first by (left; apply loc_is_Some; rewrite Hr; eauto).
  cbn. rewrite cell_combine_row. unfold reindexed at 1. rewrite Hr. cbn.
  injection Hv as ->. now rewrite combiner_notnull.
Qed.



(** ** The live overlay *)

Section LiveQuote.

Lemma set_adj_close_notin (label : date) (v : scalar) (df : Table) :
  label ∉ index df -> set_adj_close label v df = df.
Proof.
  unfold set_adj_close, index. induction df as [|[d r] df IH]; [reflexivity|].
  rewrite !fmap_cons, not_elem_of_cons. cbn [fst snd]. intros [Hne Hnot].
  rewrite decide_False by congruence. now rewrite IH.
Qed.

Lemma set_adj_close_last (label : date) (v : scalar) (rows : Table) (r : Row) :
  NoDup (index (rows ++ [(label, r)])) ->
  set_adj_close label v (rows ++ [(label, r)])
  = rows ++ [(label, mkRow (Open r) (High r) (Low r) (Close r) v (Volume r))].
Proof.
  unfold index. rewrite fmap_app. intros [Hnd [Hdisj _]]%NoDup_app.
  unfold set_adj_close. rewrite fmap_app.
  fold (set_adj_close label v rows). rewrite set_adj_close_notin.
  - cbn. now rewrite decide_True.
  - intros Hin. apply (Hdisj label Hin). cbn. left.
Qed.

Lemma index_last_snoc (rows : Table) (d : date) (r : Row) :
  index_last (rows ++ [(d, r)]) = Ok d.
Proof.
  unfold index_last, index. rewrite fmap_app.
  change (fst <$> [(d, r)]) with [d]. now rewrite last_snoc.
Qed.

End LiveQuote.

Section ReadSteps.

Variable web_DataReader : string -> string -> date -> date -> result DataFrame.
Variable fetch_live_quote : string -> option (date * scalar).
Variable _today : date.

(** [read] is its first two steps, then the live overlay when the end
    date is today, then the write under the reference key. *)
Lemma read_steps (self : DataReader) (ticker source : string) (stop : option date)
    (w : world) :
  read web_DataReader fetch_live_quote _today self ticker source stop w
  = bind (working_table web_DataReader self ticker source (end_or_today _today stop))
      (fun df =>
         bind (if decide (end_or_today _today stop = _today)
               then _update_with_live_quote fetch_live_quote ticker df
               else ret df)
           (fun df => bind (_save_raw_data ticker "reference" df) (fun _ => ret df))) w.
Proof.
  unfold read, working_table, bind.
  destruct (_read_raw_data _ _ _ _ _ _ w) as [[raw_df|e] w1]; [|reflexivity].
  destruct (_save_raw_data ticker source raw_df w1) as [[[]|e] w2]; [|reflexivity].
  destruct (use_reference self); [|reflexivity].
  destruct (_read_cache ticker "reference" w2) as [[ref_df|e] w3]; reflexivity.
Qed.

Lemma update_with_live_quote_match (ticker : string) (rows : Table) (qd : date)
    (qv : scalar) (r : Row) (w : world) :
  fetch_live_quote ticker = Some (qd, qv) ->
  NoDup (index (rows ++ [(qd, r)])) ->
  _update_with_live_quote fetch_live_quote ticker (rows ++ [(qd, r)]) w
  = (Ok (rows ++ [(qd, mkRow (Open r) (High r) (Low r) (Close r) qv (Volume r))]),
     log (EvQuote ticker) w).
Proof.
  intros Hq Hnd. unfold _update_with_live_quote. rewrite Hq, index_last_snoc.
  rewrite decide_True by reflexivity. now rewrite set_adj_close_last.
Qed.

Lemma update_with_live_quote_absent (ticker : string) (df : Table) (w : world) :
  fetch_live_quote ticker = None ->
  _update_with_live_quote fetch_live_quote ticker df w = (Ok df, log (EvQuote ticker) w).
Proof. intros Hq. unfold _update_with_live_quote. now rewrite Hq. Qed.

Lemma update_with_live_quote_mismatch (ticker : string) (rows : Table) (d qd : date)
    (qv : scalar) (r : Row) (w : world) :
  fetch_live_quote ticker = Some (qd, qv) ->
  d <> qd ->
  _update_with_live_quote fetch_live_quote ticker (rows ++ [(d, r)]) w
  = (Ok (rows ++ [(d, r)]), log (EvQuote ticker) w).
Proof.
  intros Hq Hne. unfold _update_with_live_quote. rewrite Hq, index_last_snoc.
  now rewrite decide_False.
Qed.

End ReadSteps.

(** C8 as stated fails on a working table without rows: with the end date
    today and a quote present, [_update_with_live_quote] evaluates
    [df.index[-1]] and the call raises [IndexError]. Here the vendor has no
    row up to 2017-01-01. *)
Lemma quote_on_table_without_rows_raises :
  let out := read Sample.vendor (Sample.quote_on "2017-01-01" 900) "2017-01-01"
               Sample.bypassing "GOOG" "yahoo" None Sample.empty_world in
  (working_table Sample.vendor Sample.bypassing "GOOG" "yahoo" "2017-01-01"
     Sample.empty_world).1 = Ok [] /\
  Sample.quote_on "2017-01-01" 900 "GOOG" = Some ("2017-01-01", Sample.px 900) /\
  out.1 = Raise IndexError.
Proof. vm_compute. repeat split. Qed.

(** C8, amended: take a [read] whose end date is today and whose working
    table (the table of steps 1 and 2) is [df], with unique dates. If the
    quote is absent, the call returns [df] itself, without an error, rows or
    no rows. If a quote is present and [df] has no rows, the call raises
    [IndexError]. If a quote is present and [df] has rows: when the quote is
    dated as the last row, the call returns [df] with the Adj Close of that
    last row replaced by the quote's price, every other row and column as
    in [df]; when it is dated otherwise, the call returns [df] itself,
    without an error. *)
Theorem live_overlay_touches_last_adj_close
    (web_DataReader : string -> string -> date -> date -> result DataFrame)
    (fetch_live_quote : string -> option (date * scalar)) (_today : date)
    (self : DataReader) (ticker source : string) (stop : option date)
    (df : Table) (w w1 : world) :
  end_or_today _today stop = _today ->
  working_table web_DataReader self ticker source _today w = (Ok df, w1) ->
  NoDup (index df) ->
  let returned := (read web_DataReader fetch_live_quote _today self ticker source stop w).1 in
  (fetch_live_quote ticker = None -> returned = Ok df) /\
  (is_Some (fetch_live_quote ticker) -> df = [] -> returned = Raise IndexError) /\
  (forall qd qv rows d r,
     fetch_live_quote ticker = Some (qd, qv) ->
     df = rows ++ [(d, r)] ->
     returned
     = Ok (if decide (d = qd)
           then rows ++ [(d, mkRow (Open r) (High r) (Low r) (Close r) qv (Volume r))]
           else df)).
Proof.
  intros Hstop Hwork Hnd returned.
  assert (Hret : returned = (_update_with_live_quote fetch_live_quote ticker df w1).1).
  { subst returned. rewrite read_steps, Hstop. unfold bind at 1. rewrite Hwork.
    rewrite decide_True by reflexivity. unfold bind.
    destruct (_update_with_live_quote fetch_live_quote ticker df w1)
      as [[df'|e] w2]; reflexivity. }
  rewrite Hret. split; [|split].
  - intros Hq. now rewrite update_with_live_quote_absent.
  - intros [[qd qv] Hq] ->. unfold _update_with_live_quote. now rewrite Hq.
  - intros qd qv rows d r Hq ->. case_decide as Hd.
    + subst qd. now rewrite (update_with_live_quote_match _ _ _ _ qv).
    + now rewrite (update_with_live_quote_mismatch _ _ _ _ qd qv).
Qed.

Lemma live_overlay_touches_last_adj_close_witness :
  (read Sample.vendor (Sample.quote_on "2017-11-02" 1031) "2017-11-02"
        Sample.caching "GOOG" "yahoo" None Sample.empty_world).1
  = Ok (take 3 Sample.goog ++
        [("2017-11-02", Sample.row 1021 1028 1017 1025 1031 (Sample.px 1048970))]).
Proof.
  pose proof (live_overlay_touches_last_adj_close
                Sample.vendor (Sample.quote_on "2017-11-02" 1031) "2017-11-02"
                Sample.caching "GOOG" "yahoo" None Sample.goog
                Sample.empty_world
                (working_table Sample.vendor Sample.caching "GOOG" "yahoo" "2017-11-02"
                   Sample.empty_world).2) as H.
  cbn zeta in H.
  destruct H as (_ & _ & Hquote).
  - reflexivity.
  - vm_compute. reflexivity.
  - apply (bool_decide_unpack _). vm_compute. exact I.
  - rewrite (Hquote "2017-11-02" (Sample.px 1031) (take 3 Sample.goog) "2017-11-02"
               (Sample.row 1021 1028 1017 1025 1025 (Sample.px 1048970)));
      reflexivity.
Defined.

(** ** The engine step by step *)

Section EngineFacts.

Variable web_DataReader : string -> string -> date -> date -> result DataFrame.
Variable fetch_live_quote : string -> option (date * scalar).
Variable _today : date.

Lemma string_app_inv_head (p a b : string) : (p ++ a)%string = (p ++ b)%string -> a = b.
Proof. induction p as [|c p IH]; simpl; [auto|]. intros [= H]. auto. Qed.

(** A vendor source never shares its file with the reference entry of the
    same ticker. *)
Lemma filename_reference_ne (source ticker : string) :
  source <> "reference" ->
  _market_data_filename source ticker <> _market_data_filename "reference" ticker.
Proof.
  intros Hs. unfold _market_data_filename.
  rewrite decide_False by assumption. rewrite decide_True by reflexivity.
  intros H%string_app_inv_head. simpl in H.
  destruct source as [|c1 [|c2 [|c3 [|c4 s]]]]; simpl in H; discriminate.
Qed.

Lemma fetches_snoc (t : list event) (e : event) :
  fetches (t ++ [e]) = fetches t ++ (if is_fetch e then [e] else []).
Proof.
  unfold fetches. rewrite filter_app. f_equal.
  rewrite filter_cons, filter_nil. destruct (is_fetch e); reflexivity.
Qed.

(** *** Step 1, case by case *)

Lemma read_raw_data_disabled (self : DataReader) (ticker source : string)
    (start stop : date) (w : world) :
  enable_cache self = false ->
  _read_raw_data web_DataReader self ticker source start stop w
  = _fetch_web_data web_DataReader ticker source start stop w.
Proof. intros H. unfold _read_raw_data. now rewrite H. Qed.

Lemma read_raw_data_no_entry (self : DataReader) (ticker source : string)
    (start stop : date) (w : world) :
  enable_cache self = true ->
  files w !! _market_data_filename source ticker = None ->
  _read_raw_data web_DataReader self ticker source start stop w
  = _fetch_web_data web_DataReader ticker source start stop w.
Proof.
  intros H Hf. unfold _read_raw_data, bind, _read_cache. rewrite H. cbn [negb].
  cbv beta zeta. now rewrite Hf.
Qed.

Lemma read_raw_data_beyond (self : DataReader) (ticker source : string)
    (start stop : date) (w : world) (cache_df : Table) (cache_end : date) :
  enable_cache self = true ->
  files w !! _market_data_filename source ticker = Some cache_df ->
  index_last cache_df = Ok cache_end ->
  date_lt stop cache_end ->
  _read_raw_data web_DataReader self ticker source start stop w
  = (Ok (ix_to stop cache_df), log (EvReadFile (_market_data_filename source ticker)) w).
Proof.
  intros H Hf Hl Hlt. unfold _read_raw_data, bind, _read_cache, lift, ret.
  rewrite H. cbn [negb]. cbv beta zeta. rewrite Hf, Hl. now rewrite decide_True.
Qed.

Lemma read_raw_data_incremental (self : DataReader) (ticker source : string)
    (start stop : date) (w : world) (cache_df : Table) (cache_end : date) :
  enable_cache self = true ->
  files w !! _market_data_filename source ticker = Some cache_df ->
  index_last cache_df = Ok cache_end ->
  ~ date_lt stop cache_end ->
  _read_raw_data web_DataReader self ticker source start stop w
  = (rbind (rbind (web_DataReader ticker source cache_end stop) normalize)
       (fun web_df => Ok (combine_first web_df cache_df)),
     log (EvFetch ticker source cache_end stop)
       (log (EvReadFile (_market_data_filename source ticker)) w)).
Proof.
  intros H Hf Hl Hlt. unfold _read_raw_data, bind, _read_cache, lift, ret, _fetch_web_data.
  rewrite H. cbn [negb]. cbv beta zeta. rewrite Hf, Hl. rewrite decide_False by assumption.
  destruct (rbind (web_DataReader ticker source cache_end stop) normalize); reflexivity.
Qed.

Lemma read_raw_data_files (self : DataReader) (ticker source : string)
    (start stop : date) (w : world) :
  files (_read_raw_data web_DataReader self ticker source start stop w).2 = files w.
Proof.
  unfold _read_raw_data, bind, _read_cache, lift, ret, _fetch_web_data.
  destruct (enable_cache self); cbn [negb]; [|reflexivity]. cbv beta zeta.
  destruct (files w !! _market_data_filename source ticker) as [cache_df|]; [|reflexivity].
  destruct (index_last cache_df) as [cache_end|e]; [|reflexivity].
  case_decide; [reflexivity|].
  destruct (rbind (web_DataReader ticker source cache_end stop) normalize); reflexivity.
Qed.

(** *** Computations that never call the vendor *)
Lemma keeps_bind {A B C} (obs : world -> C) (m : M A) (k : A -> M B) :
  keeps obs m -> (forall a, keeps obs (k a)) -> keeps obs (bind m k).
Proof.
  intros Hm Hk w. unfold bind. specialize (Hm w).
  destruct (m w) as [[a|e] w1]; [|exact Hm].
  rewrite Hk. exact Hm.
Qed.

Lemma keeps_ret {A C} (obs : world -> C) (a : A) : keeps obs (ret a).
Proof. intros w; reflexivity. Qed.

Lemma keeps_lift {A C} (obs : world -> C) (r : result A) : keeps obs (lift r).
Proof. intros w; reflexivity. Qed.

Lemma no_fetch_read_cache (ticker source : string) : no_fetch (_read_cache ticker source).
Proof.
  intros w. unfold _read_cache. cbv zeta.
  destruct (files w !! _market_data_filename source ticker); [|reflexivity].
  cbn. rewrite fetches_snoc. cbn. apply app_nil_r.
Qed.

Lemma no_fetch_save (ticker source : string) (df : Table) :
  no_fetch (_save_raw_data ticker source df).
Proof.
  intros w. unfold _save_raw_data. cbn. rewrite fetches_snoc. cbn. apply app_nil_r.
Qed.

Lemma no_fetch_update (ticker : string) (df : Table) :
  no_fetch (_update_with_live_quote fetch_live_quote ticker df).
Proof.
  intros w. unfold _update_with_live_quote.
  assert (E : fetches (trace (log (EvQuote ticker) w)) = fetches (trace w)).
  { cbn. rewrite fetches_snoc. cbn. apply app_nil_r. }
  destruct (fetch_live_quote ticker) as [[qd qv]|]; [|exact E].
  destruct (index_last df); [case_decide|]; exact E.
Qed.

Lemma keeps_file_read_cache (name ticker source : string) :
  keeps_file name (_read_cache ticker source).
Proof.
  intros w. unfold _read_cache. cbv zeta.
  destruct (files w !! _market_data_filename source ticker); reflexivity.
Qed.

Lemma keeps_file_save (name ticker source : string) (df : Table) :
  _market_data_filename source ticker <> name ->
  keeps_file name (_save_raw_data ticker source df).
Proof. intros Hne w. cbn. now apply lookup_insert_ne. Qed.

Lemma keeps_file_update (name ticker : string) (df : Table) :
  keeps_file name (_update_with_live_quote fetch_live_quote ticker df).
Proof.
  intros w. unfold _update_with_live_quote.
  destruct (fetch_live_quote ticker) as [[qd qv]|]; [|reflexivity].
  destruct (index_last df); [case_decide|]; reflexivity.
Qed.

(** *** Running a sequence *)

Lemma bind_ok {A B} (m : M A) (k : A -> M B) (w w1 : world) (a : A) :
  m w = (Ok a, w1) -> bind m k w = k a w1.
Proof. intros H. unfold bind. now rewrite H. Qed.

Lemma save_raw_data_eq (ticker source : string) (df : Table) (w : world) :
  _save_raw_data ticker source df w
  = (Ok tt, mkWorld (<[_market_data_filename source ticker := df]> (files w))
              (trace w ++ [EvWriteFile (_market_data_filename source ticker)])).
Proof. reflexivity. Qed.

Lemma read_cache_hit (ticker source : string) (df : Table) (w : world) :
  files w !! _market_data_filename source ticker = Some df ->
  _read_cache ticker source w
  = (Ok (Some df), log (EvReadFile (_market_data_filename source ticker)) w).
Proof. intros H. unfold _read_cache. cbv zeta. now rewrite H. Qed.

Lemma read_cache_miss (ticker source : string) (w : world) :
  files w !! _market_data_filename source ticker = None ->
  _read_cache ticker source w = (Ok None, w).
Proof. intros H. unfold _read_cache. cbv zeta. now rewrite H. Qed.

(** The vendor is only ever called from step 1. *)
Lemma read_fetches (self : DataReader) (ticker source : string) (stop : option date)
    (w : world) :
  fetches (trace (read web_DataReader fetch_live_quote _today self ticker source stop w).2)
  = fetches (trace (_read_raw_data web_DataReader self ticker source origin
                      (end_or_today _today stop) w).2).
Proof.
  unfold read. unfold bind at 1.
  destruct (_read_raw_data _ _ _ _ _ _ w) as [[raw_df|e] w1]; [|reflexivity].
  cbn [snd].
  apply (keeps_bind (fun w => fetches (trace w)) (_save_raw_data ticker source raw_df));
    [apply no_fetch_save|].
  intros _. apply keeps_bind.
  { destruct (use_reference self); [|apply keeps_ret].
    apply keeps_bind; [apply no_fetch_read_cache | intros; apply keeps_lift]. }
  intros df. apply keeps_bind.
  { case_decide; [apply no_fetch_update | apply keeps_ret]. }
  intros df'. apply keeps_bind; [apply no_fetch_save | intros; apply keeps_ret].
Qed.

(** Under a vendor source, the raw series of step 1 is what the call
    leaves in the file of (ticker, source), however the later steps end. *)
Lemma read_persists_raw (self : DataReader) (ticker source : string)
    (stop : option date) (w w1 : world) (raw_df : Table) :
  source <> "reference" ->
  _read_raw_data web_DataReader self ticker source origin (end_or_today _today stop) w
    = (Ok raw_df, w1) ->
  files (read web_DataReader fetch_live_quote _today self ticker source stop w).2
    !! _market_data_filename source ticker = Some raw_df.
Proof.
  intros Hsrc Hraw. unfold read. rewrite (bind_ok _ _ _ _ _ Hraw).
  rewrite (bind_ok _ _ _ _ _ (save_raw_data_eq _ _ _ _)).
  match goal with |- context [bind _ _ ?w2] => set (w2' := w2) end.
  transitivity (files w2' !! _market_data_filename source ticker);
    [|apply lookup_insert_eq].
  apply (keeps_bind (fun w => files w !! _market_data_filename source ticker)).
  { destruct (use_reference self); [|apply keeps_ret].
    apply keeps_bind; [apply keeps_file_read_cache | intros; apply keeps_lift]. }
  intros df. apply keeps_bind.
  { case_decide; [apply keeps_file_update | apply keeps_ret]. }
  intros df'. apply keeps_bind; [|intros; apply keeps_ret].
  apply keeps_file_save. apply not_eq_sym. now apply filename_reference_ne.
Qed.

(** *** Steps 1 and 2 *)

Lemma working_table_plain (self : DataReader) (ticker source : string) (stop : date)
    (w w1 : world) (raw_df : Table) :
  use_reference self = false ->
  _read_raw_data web_DataReader self ticker source origin stop w = (Ok raw_df, w1) ->
  working_table web_DataReader self ticker source stop w
  = (Ok raw_df,
     mkWorld (<[_market_data_filename source ticker := raw_df]> (files w))
       (trace w1 ++ [EvWriteFile (_market_data_filename source ticker)])).
Proof.
  intros Href Hraw. unfold working_table.
  rewrite (bind_ok _ _ _ _ _ Hraw).
  rewrite (bind_ok _ _ _ _ _ (save_raw_data_eq _ _ _ _)), Href.
  pose proof (read_raw_data_files self ticker source origin stop w) as Hf.
  rewrite Hraw in Hf. cbn [snd] in Hf. now rewrite Hf.
Qed.

Lemma working_table_reference (self : DataReader) (ticker source : string) (stop : date)
    (w w1 : world) (raw_df ref_df : Table) :
  use_reference self = true ->
  source <> "reference" ->
  files w !! _market_data_filename "reference" ticker = Some ref_df ->
  _read_raw_data web_DataReader self ticker source origin stop w = (Ok raw_df, w1) ->
  working_table web_DataReader self ticker source stop w
  = (_combine_ref_and_raw_data (Some ref_df) raw_df,
     mkWorld (<[_market_data_filename source ticker := raw_df]> (files w))
       (trace w1 ++ [EvWriteFile (_market_data_filename source ticker);
                     EvReadFile (_market_data_filename "reference" ticker)])).
Proof.
  intros Href Hsrc Hfile Hraw. unfold working_table.
  rewrite (bind_ok _ _ _ _ _ Hraw).
  rewrite (bind_ok _ _ _ _ _ (save_raw_data_eq _ _ _ _)), Href.
  pose proof (read_raw_data_files self ticker source origin stop w) as Hf.
  rewrite Hraw in Hf. cbn [snd] in Hf. rewrite Hf.
  erewrite bind_ok.
  2:{ apply read_cache_hit. cbn [files].
      rewrite lookup_insert_ne by now apply filename_reference_ne. exact Hfile. }
  unfold lift, log. cbn [files trace]. now rewrite <- app_assoc.
Qed.

Lemma working_table_no_reference (self : DataReader) (ticker source : string) (stop : date)
    (w w1 : world) (raw_df : Table) :
  use_reference self = true ->
  source <> "reference" ->
  files w !! _market_data_filename "reference" ticker = None ->
  _read_raw_data web_DataReader self ticker source origin stop w = (Ok raw_df, w1) ->
  working_table web_DataReader self ticker source stop w
  = (Ok raw_df,
     mkWorld (<[_market_data_filename source ticker := raw_df]> (files w))
       (trace w1 ++ [EvWriteFile (_market_data_filename source ticker)])).
Proof.
  intros Href Hsrc Hfile Hraw. unfold working_table.
  rewrite (bind_ok _ _ _ _ _ Hraw).
  rewrite (bind_ok _ _ _ _ _ (save_raw_data_eq _ _ _ _)), Href.
  pose proof (read_raw_data_files self ticker source origin stop w) as Hf.
  rewrite Hraw in Hf. cbn [snd] in Hf. rewrite Hf.
  erewrite bind_ok.
  2:{ apply read_cache_miss. cbn [files].
      rewrite lookup_insert_ne by now apply filename_reference_ne. exact Hfile. }
  reflexivity.
Qed.

(** The end of [read] once the working table is there and no exception
    comes from the live overlay. *)
Lemma read_finish (self : DataReader) (ticker source : string) (stop : option date)
    (w w2 w3 : world) (df df' : Table) :
  working_table web_DataReader self ticker source (end_or_today _today stop) w = (Ok df, w2) ->
  (if decide (end_or_today _today stop = _today)
   then _update_with_live_quote fetch_live_quote ticker df
   else ret df) w2 = (Ok df', w3) ->
  read web_DataReader fetch_live_quote _today self ticker source stop w
  = (Ok df', mkWorld (<[_market_data_filename "reference" ticker := df']> (files w3))
               (trace w3 ++ [EvWriteFile (_market_data_filename "reference" ticker)])).
Proof.
  intros Hwork Hlive. rewrite read_steps.
  rewrite (bind_ok _ _ _ _ _ Hwork), (bind_ok _ _ _ _ _ Hlive).
  now rewrite (bind_ok _ _ _ _ _ (save_raw_data_eq _ _ _ _)).
Qed.

(** *** The live overlay on a table that has a row *)

Lemma index_last_nonempty (df : Table) (d0 : date) :
  d0 ∈ index df -> exists d, index_last df = Ok d.
Proof.
  unfold index_last. destruct (last (index df)) as [d|] eqn:E; [eauto|].
  apply last_None in E. rewrite E. intros H. inversion H.
Qed.

Lemma index_set_adj_close (label : date) (v : scalar) (df : Table) :
  index (set_adj_close label v df) = index df.
Proof.
  unfold set_adj_close, index. rewrite <- list_fmap_compose.
  apply list_fmap_ext. intros i [d r] _. cbn. now case_decide.
Qed.

Lemma loc_set_adj_close (label : date) (v : scalar) (df : Table) (d : date) :
  loc (set_adj_close label v df) d
  = (fun r => if decide (d = label)
              then mkRow (Open r) (High r) (Low r) (Close r) v (Volume r) else r)
      <$> loc df d.
Proof.
  unfold set_adj_close. induction df as [|[d' r] df IH]; [reflexivity|].
  rewrite fmap_cons. cbn [fst snd loc].
  destruct (decide (d' = label)) as [->|Hne]; cbn [fst loc].
  - destruct (decide (label = d)) as [->|Hne']; [|exact IH].
    cbn. now rewrite decide_True.
  - destruct (decide (d' = d)) as [->|Hne']; [|exact IH].
    cbn. now rewrite decide_False.
Qed.

Lemma value_at_set_adj_close (label : date) (v : scalar) (df : Table) (d : date)
    (c : column) :
  c <> ColAdjClose ->
  value_at (set_adj_close label v df) d c = value_at df d c.
Proof.
  intros Hc. unfold value_at. rewrite loc_set_adj_close.
  destruct (loc df d) as [r|]; [|reflexivity]. cbn.
  case_decide; [|reflexivity]. destruct c; try reflexivity. contradiction.
Qed.

Lemma update_with_live_quote_result (ticker : string) (df : Table) (d0 : date) (w : world) :
  d0 ∈ index df ->
  exists df' : Table,
    _update_with_live_quote fetch_live_quote ticker df w = (Ok df', log (EvQuote ticker) w) /\
    index df' = index df /\
    (forall d c, c <> ColAdjClose -> value_at df' d c = value_at df d c) /\
    (fetch_live_quote ticker = None -> df' = df).
Proof.
  intros Hin. unfold _update_with_live_quote.
  destruct (fetch_live_quote ticker) as [[qd qv]|].
  - destruct (index_last_nonempty df d0 Hin) as [d ->].
    case_decide.
    + eexists; split; [reflexivity|]. split; [apply index_set_adj_close|].
      split; [|discriminate]. intros; now apply value_at_set_adj_close.
    + eexists; split; [reflexivity|]. repeat split; auto.
  - eexists; split; [reflexivity|]. repeat split; auto.
Qed.

End EngineFacts.

(** ** The reference overlay inside [read] *)

(** C9 as stated fails when the source is itself "reference": the raw series
    is then the reference file cut at the end date, it is written back over
    the reference file before the overlay reads it, and the call returns the
    truncated table. *)
Lemma reference_source_truncates :
  let w := Sample.world_with "GOOG.csv" Sample.goog in
  let out := read Sample.vendor Sample.no_quote "2017-11-03" Sample.with_reference
               "GOOG" "reference" (Some "2017-09-01") w in
  files w !! _market_data_filename "reference" "GOOG" = Some Sample.goog /\
  index_last Sample.goog = Ok "2017-11-02" /\
  date_lt "2017-09-01" "2017-11-02" /\
  out.1 = Ok (take 2 Sample.goog) /\
  index (take 2 Sample.goog) = ["2017-08-31"; "2017-09-01"] /\
  files out.2 !! _market_data_filename "reference" "GOOG" = Some (take 2 Sample.goog).
Proof. vm_compute. repeat split. Qed.

(** C9, amended: for a source other than "reference", with the reference
    overlay enabled, a reference entry whose last date [Dr] is later than the
    end date, and a raw series obtained in step 1, [read] returns a table
    that has every date of the reference table, hence dates after the end
    date, and that keeps the reference's non-null cells (the Adj Close cells
    only as far as no live quote is applied); that table is what the call
    leaves under the reference key. *)
Theorem reference_rows_beyond_end
    (web_DataReader : string -> string -> date -> date -> result DataFrame)
    (fetch_live_quote : string -> option (date * scalar)) (_today : date)
    (self : DataReader) (ticker source : string) (stop : option date)
    (w w1 : world) (ref_df raw_df : Table) (Dr : date) :
  use_reference self = true ->
  source <> "reference" ->
  files w !! _market_data_filename "reference" ticker = Some ref_df ->
  index_last ref_df = Ok Dr ->
  date_lt (end_or_today _today stop) Dr ->
  _read_raw_data web_DataReader self ticker source origin (end_or_today _today stop) w
    = (Ok raw_df, w1) ->
  exists (df : Table) (w' : world),
    read web_DataReader fetch_live_quote _today self ticker source stop w = (Ok df, w') /\
    (forall d, d ∈ index ref_df -> d ∈ index df) /\
    (exists d, d ∈ index df /\ date_lt (end_or_today _today stop) d) /\
    (forall d c v, value_at ref_df d c = Some v -> isnull v = false ->
       c <> ColAdjClose \/ end_or_today _today stop <> _today \/ fetch_live_quote ticker = None ->
       value_at df d c = Some v) /\
    files w' !! _market_data_filename "reference" ticker = Some df.
Proof.
  intros Href Hsrc Hfile Hlast Hlt Hraw.
  set (df0 := combine_first ref_df (ix_from Dr raw_df)).
  assert (HDr : Dr ∈ index ref_df) by now apply index_last_elem_of.
  assert (Hsub : forall d, d ∈ index ref_df -> d ∈ index df0).
  { intros d Hd. unfold df0. rewrite index_combine_first, elem_of_outer_join. auto. }
  assert (Hkeep : forall d c v, value_at ref_df d c = Some v -> isnull v = false ->
            value_at df0 d c = Some v).
  { intros d c v Hv Hn.
    destruct (loc ref_df Dr) as [r|] eqn:Hr;
      [|apply loc_None in Hr; contradiction].
    destruct (reference_keeps_cells ref_df raw_df Dr Hlast) as (df & Hdf & Hk).
    unfold _combine_ref_and_raw_data in Hdf. rewrite Hlast in Hdf. cbn in Hdf.
    injection Hdf as <-. eauto. }
  pose proof (working_table_reference web_DataReader self ticker source
                (end_or_today _today stop) w w1 raw_df ref_df Href Hsrc Hfile Hraw) as Hwork.
  unfold _combine_ref_and_raw_data in Hwork. rewrite Hlast in Hwork. cbn [rbind] in Hwork.
  fold df0 in Hwork.
  match type of Hwork with _ = (_, ?w2) => set (w2' := w2) in * end.
  destruct (decide (end_or_today _today stop = _today)) as [Htoday|Htoday].
  - destruct (update_with_live_quote_result fetch_live_quote ticker df0 Dr w2' (Hsub Dr HDr))
      as (df' & Hup & Hidx & Hval & Hnone).
    eexists _, _. split.
    { eapply read_finish; [exact Hwork|]. rewrite decide_True by assumption. exact Hup. }
    split; [intros d Hd; rewrite Hidx; auto|].
    split; [exists Dr; rewrite Hidx; auto|].
    split.
    + intros d c v Hv Hn [Hc|[Hc|Hc]].
      * rewrite Hval by assumption. eauto.
      * contradiction.
      * rewrite (Hnone Hc). eauto.
    + cbn [files]. apply lookup_insert_eq.
  - eexists _, _. split.
    { eapply read_finish; [exact Hwork|]. rewrite decide_False by assumption. reflexivity. }
    split; [exact Hsub|]. split; [exists Dr; auto|]. split; [eauto|].
    cbn [files]. apply lookup_insert_eq.
Qed.

Lemma reference_rows_beyond_end_witness :
  let w := Sample.world_with "GOOG.csv" Sample.goog_ref in
  exists (df : Table) (w' : world),
    read Sample.vendor Sample.no_quote "2017-11-03" Sample.with_reference
      "GOOG" "yahoo" (Some "2017-08-31") w = (Ok df, w') /\
    "2017-09-01" ∈ index df /\
    date_lt "2017-08-31" "2017-09-01" /\
    files w' !! "GOOG.csv" = Some df.
Proof.
  cbv zeta.
  destruct (reference_rows_beyond_end Sample.vendor Sample.no_quote "2017-11-03"
              Sample.with_reference "GOOG" "yahoo" (Some "2017-08-31")
              (Sample.world_with "GOOG.csv" Sample.goog_ref)
              (_read_raw_data Sample.vendor Sample.with_reference "GOOG" "yahoo" origin
                 "2017-08-31" (Sample.world_with "GOOG.csv" Sample.goog_ref)).2
              Sample.goog_ref (take 1 Sample.goog) "2017-09-01")
    as (df & w' & Hread & Hsub & _ & _ & Hfile).
  - reflexivity.
  - discriminate.
  - reflexivity.
  - reflexivity.
  - reflexivity.
  - vm_compute. reflexivity.
  - exists df, w'. split; [exact Hread|]. split; [|split; [reflexivity | exact Hfile]].
    apply Hsub. apply (bool_decide_unpack _). vm_compute. exact I.
Defined.

(** ** Step 1 against the cache *)

Section RawSeries.

Variable web_DataReader : string -> string -> date -> date -> result DataFrame.
Variable fetch_live_quote : string -> option (date * scalar).
Variable _today : date.

Lemma sorted_last_max (l : list date) (d x : date) :
  StronglySorted date_lt l -> last l = Some d -> x ∈ l -> date_le x d.
Proof.
  intros Hs [l' ->]%last_Some Hx.
  apply StronglySorted_app in Hs as (Hlt & _ & _).
  apply elem_of_app in Hx as [Hx|Hx].
  - apply date_lt_le, Hlt; [assumption|]. apply list_elem_of_singleton. reflexivity.
  - apply list_elem_of_singleton in Hx as ->. apply date_le_refl.
Qed.

Lemma index_last_ix_to (stop : date) (df : Table) (d : date) :
  index_last (ix_to stop df) = Ok d -> date_le d stop.
Proof.
  intros H%index_last_elem_of. rewrite index_ix_to in H.
  now apply list_elem_of_filter in H as [H _].
Qed.

Lemma index_last_combine_first (web_df cache_df : Table) (cache_end : date) :
  index_last cache_df = Ok cache_end ->
  exists d, index_last (combine_first web_df cache_df) = Ok d /\ date_le cache_end d.
Proof.
  intros Hc%index_last_elem_of.
  assert (Hin : cache_end ∈ index (combine_first web_df cache_df)).
  { rewrite index_combine_first, elem_of_outer_join. auto. }
  destruct (index_last_nonempty _ _ Hin) as [d Hd]. exists d. split; [assumption|].
  unfold index_last in Hd.
  destruct (last (index (combine_first web_df cache_df))) as [d'|] eqn:E; [|discriminate].
  injection Hd as ->. eapply sorted_last_max; [|exact E|exact Hin].
  rewrite index_combine_first. apply outer_join_sorted.
Qed.

Lemma read_raw_data_incremental_fetches (self : DataReader) (ticker source : string)
    (start stop : date) (w : world) (cache_df : Table) (cache_end : date) :
  enable_cache self = true ->
  files w !! _market_data_filename source ticker = Some cache_df ->
  index_last cache_df = Ok cache_end ->
  ~ date_lt stop cache_end ->
  fetches (trace (_read_raw_data web_DataReader self ticker source start stop w).2)
  = fetches (trace w) ++ [EvFetch ticker source cache_end stop].
Proof.
  intros H Hf Hl Hlt.
  rewrite (read_raw_data_incremental _ _ _ _ _ _ _ _ _ H Hf Hl Hlt).
  cbn. rewrite !fetches_snoc. cbn. now rewrite app_nil_r.
Qed.

End RawSeries.

(** C1 as stated fails when the end date equals the cached end: the guard
    of [_read_raw_data] is the strict [cache_end > end], so the vendor is
    asked for [cache_end, end]. It also fails for a repeated read: the first
    read of an earlier end is served from the cache and overwrites the entry
    with the truncated table, so the second read with the same end fetches. *)
Lemma equal_end_fetches :
  let w := Sample.world_with "GOOG.yahoo.csv" (take 2 Sample.goog) in
  let out := read Sample.vendor Sample.no_quote "2017-11-03" Sample.caching
               "GOOG" "yahoo" (Some "2017-09-01") w in
  let w0 := Sample.world_with "GOOG.yahoo.csv" Sample.goog in
  let first := read Sample.vendor Sample.no_quote "2017-11-03" Sample.caching
                 "GOOG" "yahoo" (Some "2017-09-01") w0 in
  let second := read Sample.vendor Sample.no_quote "2017-11-03" Sample.caching
                  "GOOG" "yahoo" (Some "2017-09-01") first.2 in
  files w !! _market_data_filename "yahoo" "GOOG" = Some (take 2 Sample.goog) /\
  index_last (take 2 Sample.goog) = Ok "2017-09-01" /\
  date_le "2017-09-01" "2017-09-01" /\
  fetches (trace out.2) = [EvFetch "GOOG" "yahoo" "2017-09-01" "2017-09-01"] /\
  index_last Sample.goog = Ok "2017-11-02" /\
  date_le "2017-09-01" "2017-11-02" /\
  fetches (trace first.2) = [] /\
  fetches (trace second.2) = [EvFetch "GOOG" "yahoo" "2017-09-01" "2017-09-01"].
Proof. vm_compute. repeat split. Qed.

(** C1, amended: with caching enabled and a cached entry whose last date
    [cache_end] is strictly later than the end date, step 1 reads the cache
    file, returns the cached table truncated to the end date and the whole
    call never invokes the vendor; with the overlays off (no reference, end
    date not today) that truncated table is what [read] returns. When the
    end date equals [cache_end], the vendor is invoked exactly once, for
    [cache_end, end]. *)
Theorem cached_beyond_end_no_fetch
    (web_DataReader : string -> string -> date -> date -> result DataFrame)
    (fetch_live_quote : string -> option (date * scalar)) (_today : date)
    (self : DataReader) (ticker source : string) (stop : option date)
    (w : world) (cache_df : Table) (cache_end : date) :
  enable_cache self = true ->
  files w !! _market_data_filename source ticker = Some cache_df ->
  index_last cache_df = Ok cache_end ->
  let e := end_or_today _today stop in
  let out := read web_DataReader fetch_live_quote _today self ticker source stop w in
  (date_lt e cache_end ->
     _read_raw_data web_DataReader self ticker source origin e w
       = (Ok (ix_to e cache_df), log (EvReadFile (_market_data_filename source ticker)) w) /\
     fetches (trace out.2) = fetches (trace w) /\
     (use_reference self = false -> e <> _today -> out.1 = Ok (ix_to e cache_df))) /\
  (e = cache_end ->
     fetches (trace out.2) = fetches (trace w) ++ [EvFetch ticker source cache_end e]).
Proof.
  intros Hen Hfile Hlast e out. split.
  - intros Hlt.
    pose proof (read_raw_data_beyond web_DataReader self ticker source origin e w
                  cache_df cache_end Hen Hfile Hlast Hlt) as Hraw.
    split; [exact Hraw|]. split.
    + subst out. rewrite read_fetches. fold e. rewrite Hraw. cbn.
      rewrite fetches_snoc. cbn. apply app_nil_r.
    + intros Href Hne. subst out.
      erewrite read_finish; [reflexivity| |].
      * fold e. eapply working_table_plain; eassumption.
      * fold e. rewrite decide_False by assumption. reflexivity.
  - intros He. subst out. rewrite read_fetches. fold e.
    apply (read_raw_data_incremental_fetches _ self ticker source origin e w
             cache_df cache_end); try assumption.
    rewrite He. apply date_lt_irrefl.
Qed.

Lemma cached_beyond_end_no_fetch_witness :
  let w := Sample.world_with "GOOG.yahoo.csv" Sample.goog in
  let out := read Sample.vendor Sample.no_quote "2017-11-03" Sample.caching
               "GOOG" "yahoo" (Some "2017-09-15") w in
  date_lt "2017-09-15" "2017-11-02" /\
  fetches (trace out.2) = [] /\
  out.1 = Ok (ix_to "2017-09-15" Sample.goog).
Proof.
  cbv zeta.
  destruct (cached_beyond_end_no_fetch Sample.vendor Sample.no_quote "2017-11-03"
              Sample.caching "GOOG" "yahoo" (Some "2017-09-15")
              (Sample.world_with "GOOG.yahoo.csv" Sample.goog) Sample.goog "2017-11-02")
    as [Hstrict _]; [reflexivity | reflexivity | reflexivity |].
  destruct Hstrict as (_ & Hfetch & Hout); [reflexivity|].
  split; [reflexivity|]. split; [exact Hfetch|].
  apply Hout; [reflexivity | discriminate].
Defined.

(** C2 as stated fails: a read whose end date is earlier than the cached
    end overwrites the entry with the truncated table, and the last date of
    the persisted entry goes back. *)
Lemma earlier_end_shrinks_cache :
  let w := Sample.world_with "GOOG.yahoo.csv" Sample.goog in
  let out := read Sample.vendor Sample.no_quote "2017-11-03" Sample.caching
               "GOOG" "yahoo" (Some "2017-09-15") w in
  files w !! _market_data_filename "yahoo" "GOOG" = Some Sample.goog /\
  index_last Sample.goog = Ok "2017-11-02" /\
  files out.2 !! _market_data_filename "yahoo" "GOOG" = Some (take 2 Sample.goog) /\
  index_last (take 2 Sample.goog) = Ok "2017-09-01" /\
  date_lt "2017-09-01" "2017-11-02".
Proof. vm_compute. repeat split. Qed.

(** C2, amended: under a vendor source, the raw series of step 1 is what
    the call leaves in the file of (ticker, source). With caching enabled
    and a cached entry ending at [cache_end]: if the end date is not earlier
    than [cache_end], the persisted series ends at [cache_end] or later; if
    the end date is earlier, the persisted series is the cached table
    truncated to the end date, which ends before [cache_end]. *)
Theorem raw_series_persisted
    (web_DataReader : string -> string -> date -> date -> result DataFrame)
    (fetch_live_quote : string -> option (date * scalar)) (_today : date)
    (self : DataReader) (ticker source : string) (stop : option date)
    (w w1 : world) (raw_df : Table) :
  source <> "reference" ->
  _read_raw_data web_DataReader self ticker source origin (end_or_today _today stop) w
    = (Ok raw_df, w1) ->
  let e := end_or_today _today stop in
  let out := read web_DataReader fetch_live_quote _today self ticker source stop w in
  files out.2 !! _market_data_filename source ticker = Some raw_df /\
  forall (cache_df : Table) (cache_end : date),
    enable_cache self = true ->
    files w !! _market_data_filename source ticker = Some cache_df ->
    index_last cache_df = Ok cache_end ->
    (date_le cache_end e ->
       exists d, index_last raw_df = Ok d /\ date_le cache_end d) /\
    (date_lt e cache_end ->
       raw_df = ix_to e cache_df /\
       forall d, index_last raw_df = Ok d -> date_lt d cache_end).
Proof.
  intros Hsrc Hraw e out. split.
  - subst out. eapply read_persists_raw; eassumption.
  - intros cache_df cache_end Hen Hfile Hlast. fold e in Hraw. split.
    + intros Hle%date_le_not_lt.
      rewrite (read_raw_data_incremental _ _ _ _ _ _ _ _ _ Hen Hfile Hlast Hle) in Hraw.
      destruct (rbind (web_DataReader ticker source cache_end e) normalize)
        as [web_df|err]; [|discriminate].
      cbn in Hraw. injection Hraw as <- _.
      now apply index_last_combine_first.
    + intros Hlt.
      rewrite (read_raw_data_beyond _ _ _ _ _ _ _ _ _ Hen Hfile Hlast Hlt) in Hraw.
      injection Hraw as <- _. split; [reflexivity|].
      intros d Hd%index_last_ix_to.
      apply date_le_lt_eq in Hd as [Hd| ->]; [|assumption].
      eapply date_lt_trans; eassumption.
Qed.

Lemma raw_series_persisted_witness :
  let w := Sample.world_with "GOOG.yahoo.csv" (take 2 Sample.goog) in
  let out := read Sample.vendor Sample.no_quote "2017-11-03" Sample.caching
               "GOOG" "yahoo" (Some "2017-11-02") w in
  files out.2 !! "GOOG.yahoo.csv" = Some Sample.goog /\
  exists d, index_last Sample.goog = Ok d /\ date_le "2017-09-01" d.
Proof.
  cbv zeta.
  destruct (raw_series_persisted Sample.vendor Sample.no_quote "2017-11-03"
              Sample.caching "GOOG" "yahoo" (Some "2017-11-02")
              (Sample.world_with "GOOG.yahoo.csv" (take 2 Sample.goog))
              (_read_raw_data Sample.vendor Sample.caching "GOOG" "yahoo" origin
                 "2017-11-02" (Sample.world_with "GOOG.yahoo.csv" (take 2 Sample.goog))).2
              Sample.goog)
    as [Hfile Hend]; [discriminate | vm_compute; reflexivity |].
  split; [exact Hfile|].
  destruct (Hend (take 2 Sample.goog) "2017-09-01") as [Hgrow _];
    [reflexivity | reflexivity | reflexivity |].
  apply Hgrow. reflexivity.
Defined.

(** ** Merging an incremental fetch into the cache *)

Section Merge.

Lemma sorted_NoDup (l : list date) : StronglySorted date_lt l -> NoDup l.
Proof.
  induction 1 as [|x l Hs IH Hx]; constructor; [|assumption].
  intros Hin. rewrite Forall_forall in Hx.
  exact (date_lt_irrefl x (Hx x Hin)).
Qed.

Lemma sorted_ext (l1 l2 : list date) :
  StronglySorted date_lt l1 -> StronglySorted date_lt l2 ->
  (forall x, x ∈ l1 <-> x ∈ l2) -> l1 = l2.
Proof.
  intros H1. revert l2. induction H1 as [|x l1 Hs1 IH Hx]; intros l2 H2 Hext.
  - destruct l2 as [|y l2]; [reflexivity|].
    exfalso. apply (not_elem_of_nil y), Hext. left.
  - destruct H2 as [|y l2 Hs2 Hy].
    { exfalso. apply (not_elem_of_nil x), Hext. left. }
    rewrite Forall_forall in Hx, Hy.
    assert (x = y) as <-.
    { assert (Hxy : x ∈ y :: l2) by (apply Hext; left).
      assert (Hyx : y ∈ x :: l1) by (apply Hext; left).
      apply elem_of_cons in Hxy as [?|Hxy]; [assumption|].
      apply elem_of_cons in Hyx as [?|Hyx]; [congruence|].
      exfalso. apply (date_lt_irrefl x). eapply date_lt_trans; eauto. }
    f_equal. apply IH; [assumption|].
    intros z. split; intros Hz.
    + assert (Hz' : z ∈ x :: l2) by (apply Hext; now right).
      apply elem_of_cons in Hz' as [->|?]; [|assumption].
      exfalso. exact (date_lt_irrefl x (Hx x Hz)).
    + assert (Hz' : z ∈ x :: l1) by (apply Hext; now right).
      apply elem_of_cons in Hz' as [->|?]; [|assumption].
      exfalso. exact (date_lt_irrefl x (Hy x Hz)).
Qed.

Lemma fmap_reindexed_id (t : Table) :
  NoDup (index t) -> (fun d => (d, reindexed t d)) <$> index t = t.
Proof.
  unfold index. induction t as [|[d r] t IH]; [reflexivity|].
  rewrite !fmap_cons. cbn [fst]. intros [Hnot Hnd]%NoDup_cons.
  f_equal.
  - unfold reindexed. cbn. now rewrite decide_True.
  - rewrite <- (IH Hnd) at 2. apply list_fmap_ext. intros i x Hx.
    apply list_elem_of_lookup_2 in Hx. unfold reindexed. cbn.
    rewrite decide_False by (intros ->; contradiction). reflexivity.
Qed.

(** A series cut at [D1], both halves keeping the row of [D1], is put
    together again by [combine_first]. *)
Lemma combine_first_slices (full : Table) (D1 : date) :
  sorted_unique full ->
  combine_first (ix_from D1 full) (ix_to D1 full) = full.
Proof.
  intros Hs. unfold combine_first.
  assert (Hidx : outer_join (index (ix_from D1 full)) (index (ix_to D1 full)) = index full).
  { apply sorted_ext; [apply outer_join_sorted | exact Hs |].
    intros x. rewrite elem_of_outer_join, index_ix_from, index_ix_to.
    rewrite !list_elem_of_filter. destruct (date_le_total D1 x); tauto. }
  rewrite Hidx.
  transitivity ((fun d => (d, reindexed full d)) <$> index full);
    [|now apply fmap_reindexed_id, sorted_NoDup].
  apply list_fmap_ext. intros i d Hd. apply list_elem_of_lookup_2 in Hd. f_equal.
  unfold reindexed. rewrite loc_ix_from, loc_ix_to.
  apply loc_is_Some in Hd as [r Hr]. rewrite Hr.
  destruct (decide (date_le D1 d)), (decide (date_le d D1)); cbn [default].
  - apply combine_row_idem.
  - apply combine_row_nan_r.
  - apply combine_row_nan_l.
  - destruct (date_le_total D1 d); contradiction.
Qed.

(** The same with the older half taking precedence, as in the reference
    overlay. *)
Lemma combine_first_slices_older (full : Table) (D1 : date) :
  sorted_unique full ->
  combine_first (ix_to D1 full) (ix_from D1 full) = full.
Proof.
  intros Hs. unfold combine_first.
  assert (Hidx : outer_join (index (ix_to D1 full)) (index (ix_from D1 full)) = index full).
  { apply sorted_ext; [apply outer_join_sorted | exact Hs |].
    intros x. rewrite elem_of_outer_join, index_ix_from, index_ix_to.
    rewrite !list_elem_of_filter. destruct (date_le_total D1 x); tauto. }
  rewrite Hidx.
  transitivity ((fun d => (d, reindexed full d)) <$> index full);
    [|now apply fmap_reindexed_id, sorted_NoDup].
  apply list_fmap_ext. intros i d Hd. apply list_elem_of_lookup_2 in Hd. f_equal.
  unfold reindexed. rewrite loc_ix_from, loc_ix_to.
  apply loc_is_Some in Hd as [r Hr]. rewrite Hr.
  destruct (decide (date_le D1 d)), (decide (date_le d D1)); cbn [default].
  - apply combine_row_idem.
  - apply combine_row_nan_l.
  - apply combine_row_nan_r.
  - destruct (date_le_total D1 d); contradiction.
Qed.

(** [combine_first] cell by cell: on a date of either side the cell is the
    one of [self] unless that is null, and then the one of [other]; a date
    of neither side is not in the result. *)
Lemma loc_combine_first_neither (self other : Table) (d : date) :
  d ∉ index self -> d ∉ index other -> loc (combine_first self other) d = None.
Proof.
  intros H1 H2. apply loc_None. rewrite index_combine_first, elem_of_outer_join. tauto.
Qed.

Lemma loc_combine_first_only_other (self other : Table) (d : date) :
  d ∉ index self -> loc (combine_first self other) d = loc other d.
Proof.
  intros H1. destruct (decide (d ∈ index other)) as [H2|H2].
  - rewrite loc_combine_first by now right.
    unfold reindexed. apply loc_None in H1. rewrite H1.
    apply loc_is_Some in H2 as [r Hr]. rewrite Hr. cbn [default].
    now rewrite combine_row_nan_l.
  - rewrite loc_combine_first_neither by assumption.
    symmetry. now apply loc_None.
Qed.

Lemma loc_combine_first_only_self (self other : Table) (d : date) :
  d ∉ index other -> loc (combine_first self other) d = loc self d.
Proof.
  intros H2. destruct (decide (d ∈ index self)) as [H1|H1].
  - rewrite loc_combine_first by now left.
    unfold reindexed. apply loc_None in H2. rewrite H2.
    apply loc_is_Some in H1 as [r Hr]. rewrite Hr. cbn [default].
    now rewrite combine_row_nan_r.
  - rewrite loc_combine_first_neither by assumption.
    symmetry. now apply loc_None.
Qed.

Lemma value_at_elem_of (df : Table) (d : date) (c : column) (v : scalar) :
  value_at df d c = Some v -> exists r, loc df d = Some r /\ cell c r = v /\ d ∈ index df.
Proof.
  unfold value_at. destruct (loc df d) as [r|] eqn:E; [|discriminate].
  intros [= <-]. exists r. repeat split. apply loc_is_Some. now exists r.
Qed.

Lemma value_at_combine_first_notnull (self other : Table) (d : date) (c : column)
    (v : scalar) :
  value_at self d c = Some v -> isnull v = false ->
  value_at (combine_first self other) d c = Some v.
Proof.
  intros (r & Hr & <- & Hin)%value_at_elem_of Hv.
  unfold value_at. rewrite loc_combine_first by now left.
  unfold reindexed at 1. rewrite Hr. simpl. f_equal.
  rewrite cell_combine_row. now apply combiner_notnull.
Qed.

Lemma value_at_combine_first_null (self other : Table) (d : date) (c : column)
    (v : scalar) :
  value_at self d c = Some v -> isnull v = true -> d ∈ index other ->
  value_at (combine_first self other) d c = value_at other d c.
Proof.
  intros (r & Hr & <- & Hin)%value_at_elem_of Hv Ho.
  unfold value_at. rewrite loc_combine_first by now left.
  apply loc_is_Some in Ho as [r' Hr'].
  unfold reindexed. rewrite Hr, Hr'. simpl. f_equal.
  rewrite cell_combine_row. unfold combiner. now rewrite Hv.
Qed.

End Merge.

(** C3 as stated fails for the table [read] returns when the end date is
    today and a live quote is there: the vendor is asked once for
    [D1, D2] and the raw series is the vendor's full series, but the call
    returns it with the last Adj Close replaced by the quote. *)
Lemma live_quote_alters_returned_table :
  let w := Sample.world_with "GOOG.yahoo.csv" (ix_to "2017-09-01" Sample.goog) in
  let out := read Sample.vendor (Sample.quote_on "2017-11-02" 1031) "2017-11-02"
               Sample.caching "GOOG" "yahoo" (Some "2017-11-02") w in
  let direct := _fetch_web_data Sample.vendor "GOOG" "yahoo" origin "2017-11-02"
                  Sample.empty_world in
  index_last (ix_to "2017-09-01" Sample.goog) = Ok "2017-09-01" /\
  date_lt "2017-09-01" "2017-11-02" /\
  fetches (trace out.2) = [EvFetch "GOOG" "yahoo" "2017-09-01" "2017-11-02"] /\
  direct.1 = Ok Sample.goog /\
  rbind out.1 (fun df => Ok (value_at df "2017-11-02" ColAdjClose))
    = Ok (Some (Sample.px 1031)) /\
  rbind direct.1 (fun df => Ok (value_at df "2017-11-02" ColAdjClose))
    = Ok (Some (Sample.px 1025)) /\
  out.1 <> direct.1.
Proof.
  vm_compute. repeat split. discriminate.
Qed.

(** C3, amended: let the cache hold a table [cache_df] whose last date is
    [D1], let the end date [D2] be later than [D1], and let the vendor
    answer [D1, D2] with [web_df]. Then step 1 asks the vendor exactly
    once, for [D1, D2], and its raw series [raw_df], which is what the call
    persists under (ticker, source), is the union-merge of the two with the
    fetched values winning: its dates are those of either side; on a date
    of both, every fetched cell that is not null is in [raw_df], and a null
    fetched cell is filled from the cache; a date of one side only keeps
    the row of that side. When the cache is the vendor's series [full] of
    [origin, D2] up to [D1] and the fetch is its part from [D1] on, the raw
    series is [full], and [read] returns [full] whenever the later steps
    leave it alone: no live quote applies, and the reference overlay is
    either disabled, or finds no entry, or finds the cached series. *)
Theorem incremental_fetch_reconstructs
    (web_DataReader : string -> string -> date -> date -> result DataFrame)
    (fetch_live_quote : string -> option (date * scalar)) (_today : date)
    (self : DataReader) (ticker source : string) (stop : option date)
    (w : world) (cache_df web_df : Table) (D1 D2 : date) :
  enable_cache self = true ->
  end_or_today _today stop = D2 ->
  files w !! _market_data_filename source ticker = Some cache_df ->
  index_last cache_df = Ok D1 ->
  date_lt D1 D2 ->
  rbind (web_DataReader ticker source D1 D2) normalize = Ok web_df ->
  let out := read web_DataReader fetch_live_quote _today self ticker source stop w in
  exists raw_df,
    _read_raw_data web_DataReader self ticker source origin D2 w
      = (Ok raw_df, log (EvFetch ticker source D1 D2)
                      (log (EvReadFile (_market_data_filename source ticker)) w)) /\
    fetches (trace out.2) = fetches (trace w) ++ [EvFetch ticker source D1 D2] /\
    (source <> "reference" ->
     files out.2 !! _market_data_filename source ticker = Some raw_df) /\
    (forall d, d ∈ index raw_df <-> d ∈ index web_df \/ d ∈ index cache_df) /\
    (forall d c v, value_at web_df d c = Some v -> isnull v = false ->
                   value_at raw_df d c = Some v) /\
    (forall d c v, value_at web_df d c = Some v -> isnull v = true ->
                   d ∈ index cache_df -> value_at raw_df d c = value_at cache_df d c) /\
    (forall d, d ∉ index web_df -> loc raw_df d = loc cache_df d) /\
    (forall d, d ∉ index cache_df -> loc raw_df d = loc web_df d) /\
    (forall full,
       sorted_unique full ->
       rbind (web_DataReader ticker source origin D2) normalize = Ok full ->
       web_df = ix_from D1 full ->
       cache_df = ix_to D1 full ->
       raw_df = full /\
       (D2 <> _today \/ fetch_live_quote ticker = None ->
        use_reference self = false \/
        (source <> "reference" /\
         (files w !! _market_data_filename "reference" ticker = None \/
          files w !! _market_data_filename "reference" ticker = Some cache_df)) ->
        out.1 = Ok full)).
Proof.
  intros Hen Hstop Hfile Hlast Hlt Hinc out.
  assert (Hnlt : ~ date_lt D2 D1).
  { intros H. apply (date_lt_irrefl D1). eapply date_lt_trans; eassumption. }
  assert (Hraw : _read_raw_data web_DataReader self ticker source origin D2 w
            = (Ok (combine_first web_df cache_df),
               log (EvFetch ticker source D1 D2)
                 (log (EvReadFile (_market_data_filename source ticker)) w))).
  { rewrite (read_raw_data_incremental _ _ _ _ _ _ _ _ _ Hen Hfile Hlast Hnlt).
    now rewrite Hinc. }
  exists (combine_first web_df cache_df).
  split; [exact Hraw|]. repeat split.
  - subst out. rewrite read_fetches, Hstop.
    now apply (read_raw_data_incremental_fetches _ self ticker source origin D2 w
                 cache_df D1).
  - intros Hsrc. subst out. eapply read_persists_raw; [assumption|].
    rewrite Hstop. exact Hraw.
  - rewrite index_combine_first. apply elem_of_outer_join.
  - rewrite index_combine_first. apply elem_of_outer_join.
  - intros d c v. apply value_at_combine_first_notnull.
  - intros d c v. apply value_at_combine_first_null.
  - intros d. apply loc_combine_first_only_other.
  - intros d. apply loc_combine_first_only_self.
  - subst web_df cache_df. now apply combine_first_slices.
  - intros Hlive Hover. subst web_df cache_df. subst out.
    rewrite combine_first_slices in Hraw by assumption.
    assert (Hwork : exists w2,
              working_table web_DataReader self ticker source D2 w = (Ok full, w2)).
    { destruct Hover as [Href|[Hsrc [Hnone|Hsome]]].
      - eexists. eapply working_table_plain; eassumption.
      - destruct (use_reference self) eqn:Href.
        + eexists. eapply working_table_no_reference; eassumption.
        + eexists. eapply working_table_plain; eassumption.
      - destruct (use_reference self) eqn:Href.
        + eexists.
          rewrite (working_table_reference _ _ _ _ _ _ _ _ _ Href Hsrc Hsome Hraw).
          unfold _combine_ref_and_raw_data. rewrite Hlast. cbn [rbind].
          now rewrite combine_first_slices_older.
        + eexists. eapply working_table_plain; eassumption. }
    destruct Hwork as [w2 Hwork]. rewrite <- Hstop in Hwork.
    assert (Hup : exists w3,
              (if decide (end_or_today _today stop = _today)
               then _update_with_live_quote fetch_live_quote ticker full
               else ret full) w2 = (Ok full, w3)).
    { case_decide as Ht; [|eexists; reflexivity].
      destruct Hlive as [Hne|Hq]; [congruence|].
      eexists. now apply update_with_live_quote_absent. }
    destruct Hup as [w3 Hup].
    now rewrite (read_finish _ _ _ _ _ _ _ _ _ _ _ _ Hwork Hup).
Qed.

(** A cache whose adjusted closes are out of date: the row of 2017-09-01,
    fetched again, takes the vendor's 937 over the cached 936; the row of
    2017-08-31, which the vendor is not asked for, keeps the cached 938. *)
Lemma incremental_fetch_reconstructs_witness :
  let w := Sample.world_with "GOOG.yahoo.csv" Sample.goog_ref in
  let out := read Sample.vendor (Sample.quote_on "2017-11-02" 1031) "2017-11-03"
               Sample.caching "GOOG" "yahoo" (Some "2017-11-02") w in
  fetches (trace out.2) = [EvFetch "GOOG" "yahoo" "2017-09-01" "2017-11-02"] /\
  exists raw_df,
    files out.2 !! "GOOG.yahoo.csv" = Some raw_df /\
    index raw_df = index Sample.goog /\
    value_at Sample.goog_ref "2017-09-01" ColAdjClose = Some (Sample.px 936) /\
    value_at raw_df "2017-09-01" ColAdjClose = Some (Sample.px 937) /\
    value_at raw_df "2017-08-31" ColAdjClose = Some (Sample.px 938).
Proof.
  cbv zeta.
  destruct (incremental_fetch_reconstructs
              Sample.vendor (Sample.quote_on "2017-11-02" 1031) "2017-11-03"
              Sample.caching "GOOG" "yahoo" (Some "2017-11-02")
              (Sample.world_with "GOOG.yahoo.csv" Sample.goog_ref)
              Sample.goog_ref (drop 1 Sample.goog) "2017-09-01" "2017-11-02")
    as (raw_df & Hraw & Hfetch & Hfile & _ & Hwin & _ & Hcache & _).
  - reflexivity.
  - reflexivity.
  - reflexivity.
  - reflexivity.
  - reflexivity.
  - vm_compute. reflexivity.
  - split; [exact Hfetch|]. exists raw_df.
    split; [apply Hfile; discriminate|].
    split; [|split; [reflexivity|split]].
    + apply (f_equal fst) in Hraw. vm_compute in Hraw. injection Hraw as <-.
      reflexivity.
    + apply Hwin; reflexivity.
    + unfold value_at. rewrite Hcache; [reflexivity|].
      apply (bool_decide_unpack _). vm_compute. exact I.
Defined.

(** ** Reading with the cache disabled *)

(** C4 as stated fails: with [enable_cache] false the call still writes the
    raw series under (ticker, source) and the final table under the
    reference key, and with the reference overlay enabled it reads the
    reference file. *)
Lemma disabled_cache_still_writes :
  let out := read Sample.vendor Sample.no_quote "2017-11-03" Sample.bypassing
               "GOOG" "yahoo" (Some "2017-09-01") Sample.empty_world in
  let out' := read Sample.vendor Sample.no_quote "2017-11-03"
                Sample.bypassing_with_reference
                "GOOG" "yahoo" (Some "2017-09-01")
                (Sample.world_with "GOOG.csv" Sample.goog_ref) in
  enable_cache Sample.bypassing = false /\
  enable_cache Sample.bypassing_with_reference = false /\
  files Sample.empty_world !! "GOOG.yahoo.csv" = None /\
  files Sample.empty_world !! "GOOG.csv" = None /\
  out.1 = Ok (take 2 Sample.goog) /\
  files out.2 !! "GOOG.yahoo.csv" = Some (take 2 Sample.goog) /\
  files out.2 !! "GOOG.csv" = Some (take 2 Sample.goog) /\
  file_accesses (trace out.2) = [EvWriteFile "GOOG.yahoo.csv"; EvWriteFile "GOOG.csv"] /\
  file_accesses (trace out'.2)
    = [EvWriteFile "GOOG.yahoo.csv"; EvReadFile "GOOG.csv"; EvWriteFile "GOOG.csv"].
Proof. vm_compute. repeat split. Qed.

(** C4, amended: with [enable_cache] false, step 1 does not look at the
    cache; it is exactly one vendor fetch over [origin, end], whose
    normalized answer is the raw series, and no other fetch is made by the
    call. The call still persists: under a vendor source the raw series is
    left in the file of (ticker, source), and with the overlays off the call
    returns the fetched table after writing it under both keys. *)
Theorem disabled_cache_fetches_directly
    (web_DataReader : string -> string -> date -> date -> result DataFrame)
    (fetch_live_quote : string -> option (date * scalar)) (_today : date)
    (self : DataReader) (ticker source : string) (stop : option date) (w : world) :
  enable_cache self = false ->
  let e := end_or_today _today stop in
  let out := read web_DataReader fetch_live_quote _today self ticker source stop w in
  let raw_name := _market_data_filename source ticker in
  let ref_name := _market_data_filename "reference" ticker in
  _read_raw_data web_DataReader self ticker source origin e w
    = (rbind (web_DataReader ticker source origin e) normalize,
       log (EvFetch ticker source origin e) w) /\
  fetches (trace out.2) = fetches (trace w) ++ [EvFetch ticker source origin e] /\
  forall raw_df : Table,
    rbind (web_DataReader ticker source origin e) normalize = Ok raw_df ->
    (source <> "reference" -> files out.2 !! raw_name = Some raw_df) /\
    (use_reference self = false -> e <> _today ->
     out = (Ok raw_df,
            mkWorld (<[ref_name := raw_df]> (<[raw_name := raw_df]> (files w)))
              (trace w ++ [EvFetch ticker source origin e;
                           EvWriteFile raw_name; EvWriteFile ref_name]))).
Proof.
  intros Hen e out raw_name ref_name.
  assert (Hraw : _read_raw_data web_DataReader self ticker source origin e w
            = (rbind (web_DataReader ticker source origin e) normalize,
               log (EvFetch ticker source origin e) w)).
  { now rewrite read_raw_data_disabled. }
  split; [exact Hraw|]. split.
  - subst out. rewrite read_fetches. fold e. rewrite Hraw. cbn.
    now rewrite fetches_snoc.
  - intros raw_df Hweb. rewrite Hweb in Hraw. split.
    + intros Hsrc. subst out raw_name. eapply read_persists_raw; eassumption.
    + intros Href Hne. subst out.
      pose proof (working_table_plain web_DataReader self ticker source e w _ raw_df
                    Href Hraw) as Hwork.
      erewrite read_finish; [|exact Hwork|].
      2:{ fold e. rewrite decide_False by assumption. reflexivity. }
      cbn. unfold raw_name, ref_name. now rewrite <- !app_assoc.
Qed.

Lemma disabled_cache_fetches_directly_witness :
  let out := read Sample.vendor Sample.no_quote "2017-11-03" Sample.bypassing
               "GOOG" "yahoo" (Some "2017-09-01")
               (Sample.world_with "GOOG.yahoo.csv" Sample.goog) in
  fetches (trace out.2) = [EvFetch "GOOG" "yahoo" "1926-01-01" "2017-09-01"] /\
  files out.2 !! "GOOG.yahoo.csv" = Some (take 2 Sample.goog).
Proof.
  cbv zeta.
  destruct (disabled_cache_fetches_directly Sample.vendor Sample.no_quote "2017-11-03"
              Sample.bypassing "GOOG" "yahoo" (Some "2017-09-01")
              (Sample.world_with "GOOG.yahoo.csv" Sample.goog))
    as (_ & Hfetch & Hfiles); [reflexivity|].
  split; [exact Hfetch|].
  destruct (Hfiles (take 2 Sample.goog)) as [Hraw _]; [reflexivity|].
  apply Hraw. discriminate.
Defined.

(** * Further properties *)

(** ** The fetch adapter on arbitrary vendor frames *)

Section Adapter.

(** [normalize] in closed form: the five mandatory columns are looked up in
    the order Open, Close, High, Low, Volume, and the first one missing is
    the [KeyError]; Adj Close is optional. *)
Lemma normalize_cases (df : DataFrame) :
  normalize df =
  match find_column OpenCol (frame_columns df) with
  | None => Raise (KeyError OpenCol)
  | Some o =>
    match find_column CloseCol (frame_columns df) with
    | None => Raise (KeyError CloseCol)
    | Some c =>
      match find_column HighCol (frame_columns df) with
      | None => Raise (KeyError HighCol)
      | Some h =>
        match find_column LowCol (frame_columns df) with
        | None => Raise (KeyError LowCol)
        | Some l =>
          match find_column VolumeCol (frame_columns df) with
          | None => Raise (KeyError VolumeCol)
          | Some v =>
              Ok (zip_rows (frame_index df) o h l c
                    (default c (find_column AdjCloseCol (frame_columns df))) v)
          end
        end
      end
    end
  end.
Proof.
  destruct (find_column OpenCol (frame_columns df)) as [o|] eqn:Ho;
    [|unfold normalize, getitem; now rewrite Ho].
  destruct (find_column CloseCol (frame_columns df)) as [c|] eqn:Hc;
    [|unfold normalize, getitem; now rewrite Ho, Hc].
  destruct (find_column HighCol (frame_columns df)) as [h|] eqn:Hh;
    [|unfold normalize, getitem; now rewrite Ho, Hc, Hh].
  destruct (find_column LowCol (frame_columns df)) as [l|] eqn:Hl;
    [|unfold normalize, getitem; now rewrite Ho, Hc, Hh, Hl].
  destruct (find_column VolumeCol (frame_columns df)) as [v|] eqn:Hv;
    [|unfold normalize, getitem; now rewrite Ho, Hc, Hh, Hl, Hv].
  now apply normalize_spec.
Qed.

End Adapter.

(** X1: the adapter hands on the vendor's cells as they are. For a
    well-formed frame that has the six columns, the returned table has the
    vendor's index and, column by column, the vendor's series: no cell is
    converted, so an int64 cell stays an int64. *)
Theorem fetch_keeps_vendor_cells (df : DataFrame) (o h l c a v : Series) :
  frame_wf df ->
  find_column OpenCol (frame_columns df) = Some o ->
  find_column HighCol (frame_columns df) = Some h ->
  find_column LowCol (frame_columns df) = Some l ->
  find_column CloseCol (frame_columns df) = Some c ->
  find_column AdjCloseCol (frame_columns df) = Some a ->
  find_column VolumeCol (frame_columns df) = Some v ->
  exists t : Table,
    normalize df = Ok t /\
    index t = frame_index df /\
    (fun r => Open r.2) <$> t = o /\ (fun r => High r.2) <$> t = h /\
    (fun r => Low r.2) <$> t = l /\ (fun r => Close r.2) <$> t = c /\
    (fun r => AdjClose r.2) <$> t = a /\ (fun r => Volume r.2) <$> t = v.
Proof.
  intros Hwf Ho Hh Hl Hc Ha Hv.
  rewrite (normalize_spec df o h l c v) by assumption. rewrite Ha. cbn [default].
  eexists; split; [reflexivity|].
  apply zip_rows_columns; eauto using find_column_wf.
Qed.

Lemma fetch_keeps_vendor_cells_witness :
  exists t : Table,
    normalize (Sample.to_frame Sample.goog_int64) = Ok t /\
    (fun r => Volume r.2) <$> t = [SInt 1582600; SInt 947400].
Proof.
  destruct (fetch_keeps_vendor_cells (Sample.to_frame Sample.goog_int64)
              ((fun r => Open r.2) <$> Sample.goog_int64)
              ((fun r => High r.2) <$> Sample.goog_int64)
              ((fun r => Low r.2) <$> Sample.goog_int64)
              ((fun r => Close r.2) <$> Sample.goog_int64)
              ((fun r => AdjClose r.2) <$> Sample.goog_int64)
              ((fun r => Volume r.2) <$> Sample.goog_int64))
    as (t & Ht & _ & _ & _ & _ & _ & _ & Hv);
    [repeat constructor | reflexivity | reflexivity | reflexivity | reflexivity
    | reflexivity | reflexivity |].
  exists t. split; [exact Ht | exact Hv].
Defined.

(** X2: the adapter looks at the index and at the six columns it names,
    and at nothing else: two vendor frames with the same index that agree on
    these six lookups, whatever other columns they carry and in whatever
    order, give the same outcome, table or exception. *)
Theorem normalize_ignores_other_columns (df df' : DataFrame) :
  frame_index df = frame_index df' ->
  (forall c, c ∈ selected_columns ->
     find_column c (frame_columns df) = find_column c (frame_columns df')) ->
  normalize df = normalize df'.
Proof.
  intros Hidx Hcols. rewrite !normalize_cases, Hidx.
  rewrite !(Hcols OpenCol), !(Hcols CloseCol), !(Hcols HighCol), !(Hcols LowCol),
    !(Hcols VolumeCol), !(Hcols AdjCloseCol); [reflexivity|..];
    unfold selected_columns; rewrite !elem_of_cons; tauto.
Qed.

Lemma normalize_ignores_other_columns_witness :
  normalize (mkFrame (index Sample.goog)
               (("Dividends", []) :: reverse (frame_columns (Sample.to_frame Sample.goog))))
  = normalize (Sample.to_frame Sample.goog).
Proof.
  apply normalize_ignores_other_columns.
  - reflexivity.
  - intros c Hc. unfold selected_columns in Hc.
    repeat (apply elem_of_cons in Hc as [->|Hc]; [reflexivity|]).
    now apply elem_of_nil in Hc.
Defined.

(** X3: the adapter raises [KeyError] exactly when one of Open, Close,
    High, Low, Volume is missing, and the error names the first one missing
    in that order (the order of the [astype] statements); a missing
    Adj Close is never an error. *)
Theorem normalize_key_error (df : DataFrame) :
  match first_missing df with
  | Some c => c ∈ mandatory_columns /\ normalize df = Raise (KeyError c)
  | None => exists t, normalize df = Ok t
  end.
Proof.
  rewrite normalize_cases. unfold first_missing, mandatory_columns.
  cbn [list_find fmap option_fmap option_map].
  destruct (find_column OpenCol (frame_columns df)) as [o|];
    [rewrite decide_False by discriminate | rewrite decide_True by reflexivity; cbn;
     split; [rewrite !elem_of_cons; tauto | reflexivity]].
  destruct (find_column CloseCol (frame_columns df)) as [c|];
    [rewrite decide_False by discriminate | rewrite decide_True by reflexivity; cbn;
     split; [rewrite !elem_of_cons; tauto | reflexivity]].
  destruct (find_column HighCol (frame_columns df)) as [h|];
    [rewrite decide_False by discriminate | rewrite decide_True by reflexivity; cbn;
     split; [rewrite !elem_of_cons; tauto | reflexivity]].
  destruct (find_column LowCol (frame_columns df)) as [l|];
    [rewrite decide_False by discriminate | rewrite decide_True by reflexivity; cbn;
     split; [rewrite !elem_of_cons; tauto | reflexivity]].
  destruct (find_column VolumeCol (frame_columns df)) as [v|];
    [rewrite decide_False by discriminate | rewrite decide_True by reflexivity; cbn;
     split; [rewrite !elem_of_cons; tauto | reflexivity]].
  cbn. eauto.
Qed.

(** ** Outcomes and footprint of [read] *)

Section ReadOutcome.

Variable web_DataReader : string -> string -> date -> date -> result DataFrame.
Variable fetch_live_quote : string -> option (date * scalar).
Variable _today : date.

Lemma bind_raise {A B} (m : M A) (k : A -> M B) (w w1 : world) (e : exn) :
  m w = (Raise e, w1) -> bind m k w = (Raise e, w1).
Proof. intros H. unfold bind. now rewrite H. Qed.

Lemma read_step1_raise (self : DataReader) (ticker source : string) (stop : option date)
    (w w1 : world) (e : exn) :
  _read_raw_data web_DataReader self ticker source origin (end_or_today _today stop) w
    = (Raise e, w1) ->
  read web_DataReader fetch_live_quote _today self ticker source stop w = (Raise e, w1).
Proof. intros H. unfold read. cbv zeta. unfold bind at 1. now rewrite H. Qed.

(** What a successful [read] went through. *)
Lemma read_ok_inv (self : DataReader) (ticker source : string) (stop : option date)
    (w w' : world) (df : Table) :
  read web_DataReader fetch_live_quote _today self ticker source stop w = (Ok df, w') ->
  exists (df0 : Table) (w2 w3 : world),
    working_table web_DataReader self ticker source (end_or_today _today stop) w
      = (Ok df0, w2) /\
    (if decide (end_or_today _today stop = _today)
     then _update_with_live_quote fetch_live_quote ticker df0
     else ret df0) w2 = (Ok df, w3) /\
    w' = mkWorld (<[_market_data_filename "reference" ticker := df]> (files w3))
           (trace w3 ++ [EvWriteFile (_market_data_filename "reference" ticker)]).
Proof.
  rewrite read_steps. unfold bind at 1.
  destruct (working_table _ _ _ _ _ w) as [[df0|e] w2]; [|discriminate].
  unfold bind at 1.
  destruct ((if decide (end_or_today _today stop = _today)
             then _update_with_live_quote fetch_live_quote ticker df0
             else ret df0) w2) as [[df1|e] w3] eqn:Hlive; [|discriminate].
  rewrite (bind_ok _ _ _ _ _ (save_raw_data_eq _ _ _ _)). unfold ret.
  intros H. injection H as <- <-.
  exists df0, w2, w3. split; [reflexivity|]. split; [exact Hlive | reflexivity].
Qed.

Lemma quotes_snoc (t : list event) (e : event) :
  quotes (t ++ [e]) = quotes t ++ (if is_quote e then [e] else []).
Proof.
  unfold quotes. rewrite filter_app. f_equal.
  rewrite filter_cons, filter_nil. destruct (is_quote e); reflexivity.
Qed.

Lemma keeps_quotes_log {A} (r : result A) (e : event) :
  is_quote e = false ->
  keeps (fun w => quotes (trace w)) (fun w => (r, log e w)).
Proof. intros He w. cbn. rewrite quotes_snoc, He. apply app_nil_r. Qed.

Lemma keeps_quotes_read_cache (ticker source : string) :
  keeps (fun w => quotes (trace w)) (_read_cache ticker source).
Proof.
  intros w. unfold _read_cache. cbv zeta.
  destruct (files w !! _market_data_filename source ticker); [|reflexivity].
  cbn. rewrite quotes_snoc. apply app_nil_r.
Qed.

Lemma keeps_quotes_save (ticker source : string) (df : Table) :
  keeps (fun w => quotes (trace w)) (_save_raw_data ticker source df).
Proof. intros w. cbn. rewrite quotes_snoc. apply app_nil_r. Qed.

Lemma keeps_quotes_fetch (ticker source : string) (start stop : date) :
  keeps (fun w => quotes (trace w)) (_fetch_web_data web_DataReader ticker source start stop).
Proof. intros w. cbn. rewrite quotes_snoc. apply app_nil_r. Qed.

Lemma keeps_quotes_read_raw_data (self : DataReader) (ticker source : string)
    (start stop : date) :
  keeps (fun w => quotes (trace w))
    (_read_raw_data web_DataReader self ticker source start stop).
Proof.
  unfold _read_raw_data.
  destruct (enable_cache self); cbn [negb]; [|apply keeps_quotes_fetch].
  apply keeps_bind; [apply keeps_quotes_read_cache|].
  intros [cache_df|]; [|apply keeps_quotes_fetch].
  apply keeps_bind; [apply keeps_lift|]. intros cache_end.
  case_decide; [apply keeps_ret|].
  apply keeps_bind; [apply keeps_quotes_fetch | intros; apply keeps_ret].
Qed.

Lemma keeps_quotes_working_table (self : DataReader) (ticker source : string) (stop : date) :
  keeps (fun w => quotes (trace w)) (working_table web_DataReader self ticker source stop).
Proof.
  unfold working_table.
  apply keeps_bind; [apply keeps_quotes_read_raw_data|]. intros raw_df.
  apply keeps_bind; [apply keeps_quotes_save|]. intros _.
  destruct (use_reference self); [|apply keeps_ret].
  apply keeps_bind; [apply keeps_quotes_read_cache | intros; apply keeps_lift].
Qed.

Lemma update_with_live_quote_trace (ticker : string) (df : Table) (w : world) :
  (_update_with_live_quote fetch_live_quote ticker df w).2 = log (EvQuote ticker) w.
Proof.
  unfold _update_with_live_quote.
  destruct (fetch_live_quote ticker) as [[qd qv]|]; [|reflexivity].
  destruct (index_last df); [case_decide|]; reflexivity.
Qed.

Lemma keeps_file_read_raw_data (name : string) (self : DataReader) (ticker source : string)
    (start stop : date) :
  keeps_file name (_read_raw_data web_DataReader self ticker source start stop).
Proof. intros w. cbn beta. now rewrite read_raw_data_files. Qed.

(** The live overlay when no quote applies. *)
Lemma live_overlay_idle (ticker : string) (stop : date) (df : Table) (w : world) :
  stop <> _today \/ fetch_live_quote ticker = None ->
  exists w3,
    (if decide (stop = _today)
     then _update_with_live_quote fetch_live_quote ticker df
     else ret df) w = (Ok df, w3) /\ files w3 = files w.
Proof.
  intros Hidle. case_decide as Ht.
  - destruct Hidle as [Hne|Hq]; [contradiction|].
    rewrite update_with_live_quote_absent by assumption. eauto.
  - unfold ret. eauto.
Qed.

(** A cached table without rows stops step 1 at [cache_df.index[-1]]. *)
Lemma read_raw_data_bad_cache (self : DataReader) (ticker source : string)
    (start stop : date) (w : world) (cache_df : Table) (err : exn) :
  enable_cache self = true ->
  files w !! _market_data_filename source ticker = Some cache_df ->
  index_last cache_df = Raise err ->
  _read_raw_data web_DataReader self ticker source start stop w
  = (Raise err, log (EvReadFile (_market_data_filename source ticker)) w).
Proof.
  intros H Hf Hl. unfold _read_raw_data, bind, _read_cache, lift.
  rewrite H. cbn [negb]. cbv beta zeta. now rewrite Hf, Hl.
Qed.

(** The quote requests of one [read]. *)
Lemma quote_trace_of_read (self : DataReader) (ticker source : string) (stop : option date)
    (w : world) :
  quotes (trace (read web_DataReader fetch_live_quote _today self ticker source stop w).2)
  = quotes (trace w) ++
    match (working_table web_DataReader self ticker source (end_or_today _today stop) w).1 with
    | Ok _ => if decide (end_or_today _today stop = _today) then [EvQuote ticker] else []
    | Raise _ => []
    end.
Proof.
  set (e := end_or_today _today stop). rewrite read_steps. fold e.
  pose proof (keeps_quotes_working_table self ticker source e w) as Hw.
  unfold keeps in Hw. unfold bind at 1.
  destruct (working_table web_DataReader self ticker source e w) as [[df|err] w2];
    cbn [fst snd] in *; [|now rewrite Hw, app_nil_r].
  rewrite <- Hw. unfold bind at 1.
  destruct (decide (e = _today)) as [Ht|Ht].
  - pose proof (update_with_live_quote_trace ticker df w2) as Hu.
    destruct (_update_with_live_quote fetch_live_quote ticker df w2) as [[df'|err] w3];
      cbn [snd] in Hu; subst w3.
    + rewrite (bind_ok _ _ _ _ _ (save_raw_data_eq _ _ _ _)). cbn.
      now rewrite !quotes_snoc, app_nil_r.
    + cbn. now rewrite quotes_snoc.
  - unfold ret. rewrite (bind_ok _ _ _ _ _ (save_raw_data_eq _ _ _ _)). cbn.
    now rewrite quotes_snoc.
Qed.

End ReadOutcome.

(** X4: an exception in step 1 (a vendor failure, a missing column, an
    empty cached table) is the outcome of [read] itself, and the call then
    leaves every cache file as it was and asks for no live quote. *)
Theorem step1_failure_leaves_cache
    (web_DataReader : string -> string -> date -> date -> result DataFrame)
    (fetch_live_quote : string -> option (date * scalar)) (_today : date)
    (self : DataReader) (ticker source : string) (stop : option date)
    (w w1 : world) (e : exn) :
  _read_raw_data web_DataReader self ticker source origin (end_or_today _today stop) w
    = (Raise e, w1) ->
  let out := read web_DataReader fetch_live_quote _today self ticker source stop w in
  out.1 = Raise e /\ files out.2 = files w /\ quotes (trace out.2) = quotes (trace w).
Proof.
  intros Hraw out. subst out.
  rewrite (read_step1_raise _ fetch_live_quote _ _ _ _ _ _ _ _ Hraw). cbn [fst snd].
  pose proof (read_raw_data_files web_DataReader self ticker source origin
                (end_or_today _today stop) w) as Hf.
  pose proof (keeps_quotes_read_raw_data web_DataReader self ticker source origin
                (end_or_today _today stop) w) as Hq.
  rewrite Hraw in Hf, Hq. auto.
Qed.

Lemma step1_failure_leaves_cache_witness :
  let w := Sample.world_with "GOOG.yahoo.csv" Sample.goog in
  let out := read Sample.vendor (Sample.quote_on "2017-11-02" 1031) "2017-11-02"
               Sample.caching "MSFT" "yahoo" None w in
  out.1 = Raise (RemoteDataError "MSFT") /\ files out.2 = files w /\
  quotes (trace out.2) = quotes (trace w).
Proof.
  apply (step1_failure_leaves_cache Sample.vendor (Sample.quote_on "2017-11-02" 1031)
           "2017-11-02" Sample.caching "MSFT" "yahoo" None
           (Sample.world_with "GOOG.yahoo.csv" Sample.goog)
           (_read_raw_data Sample.vendor Sample.caching "MSFT" "yahoo" origin "2017-11-02"
              (Sample.world_with "GOOG.yahoo.csv" Sample.goog)).2).
  vm_compute. reflexivity.
Defined.

(** X5: [read] touches two files at most, the file of (ticker, source) and
    the reference file of the ticker: every other file of the cache
    directory is after the call what it was before, whatever the outcome.
    No file is ever removed. *)
Theorem read_touches_two_files
    (web_DataReader : string -> string -> date -> date -> result DataFrame)
    (fetch_live_quote : string -> option (date * scalar)) (_today : date)
    (self : DataReader) (ticker source : string) (stop : option date)
    (w : world) (name : string) :
  name <> _market_data_filename source ticker ->
  name <> _market_data_filename "reference" ticker ->
  files (read web_DataReader fetch_live_quote _today self ticker source stop w).2 !! name
  = files w !! name.
Proof.
  intros Hraw Href. unfold read. cbv zeta.
  apply (keeps_bind (fun w => files w !! name));
    [apply keeps_file_read_raw_data|].
  intros raw_df. apply keeps_bind; [now apply keeps_file_save, not_eq_sym|].
  intros _. apply keeps_bind.
  { destruct (use_reference self); [|apply keeps_ret].
    apply keeps_bind; [apply keeps_file_read_cache | intros; apply keeps_lift]. }
  intros df. apply keeps_bind.
  { case_decide; [apply keeps_file_update | apply keeps_ret]. }
  intros df'. apply keeps_bind; [|intros; apply keeps_ret].
  now apply keeps_file_save, not_eq_sym.
Qed.

Lemma read_touches_two_files_witness :
  let w := Sample.world_with "AAPL.yahoo.csv" Sample.goog_ref in
  files (read Sample.vendor Sample.no_quote "2017-11-03" Sample.with_reference
           "GOOG" "yahoo" None w).2 !! "AAPL.yahoo.csv" = Some Sample.goog_ref.
Proof.
  cbv zeta.
  rewrite (read_touches_two_files Sample.vendor Sample.no_quote "2017-11-03"
             Sample.with_reference "GOOG" "yahoo" None
             (Sample.world_with "AAPL.yahoo.csv" Sample.goog_ref) "AAPL.yahoo.csv");
    [reflexivity | discriminate | discriminate].
Defined.

(** X6: one call of [read] asks the vendor at most once, and only for its
    own ticker and source and up to its own end date. *)
Theorem read_fetches_at_most_once
    (web_DataReader : string -> string -> date -> date -> result DataFrame)
    (fetch_live_quote : string -> option (date * scalar)) (_today : date)
    (self : DataReader) (ticker source : string) (stop : option date) (w : world) :
  let e := end_or_today _today stop in
  let out := read web_DataReader fetch_live_quote _today self ticker source stop w in
  fetches (trace out.2) = fetches (trace w) \/
  exists start, fetches (trace out.2) = fetches (trace w) ++ [EvFetch ticker source start e].
Proof.
  intros e out. subst out. rewrite read_fetches. fold e.
  destruct (enable_cache self) eqn:Hen.
  - destruct (files w !! _market_data_filename source ticker) as [cache_df|] eqn:Hfile.
    + destruct (index_last cache_df) as [cache_end|err] eqn:Hlast.
      * destruct (decide (date_lt e cache_end)) as [Hlt|Hlt].
        -- left. rewrite (read_raw_data_beyond _ _ _ _ _ _ _ _ _ Hen Hfile Hlast Hlt).
           cbn. rewrite fetches_snoc. apply app_nil_r.
        -- right. exists cache_end.
           rewrite (read_raw_data_incremental _ _ _ _ _ _ _ _ _ Hen Hfile Hlast Hlt).
           cbn. rewrite !fetches_snoc. cbn. now rewrite app_nil_r.
      * left. rewrite (read_raw_data_bad_cache _ _ _ _ _ _ _ _ _ Hen Hfile Hlast).
        cbn. rewrite fetches_snoc. apply app_nil_r.
    + right. exists origin. rewrite read_raw_data_no_entry by assumption.
      cbn. now rewrite fetches_snoc.
  - right. exists origin. rewrite read_raw_data_disabled by assumption.
    cbn. now rewrite fetches_snoc.
Qed.

(** X7: the live quote source is asked exactly when the end date is today
    and steps 1 and 2 have produced a working table, and then once; a read
    for any other end date never asks for a quote. *)
Theorem quote_requested_only_today
    (web_DataReader : string -> string -> date -> date -> result DataFrame)
    (fetch_live_quote : string -> option (date * scalar)) (_today : date)
    (self : DataReader) (ticker source : string) (stop : option date) (w : world) :
  let e := end_or_today _today stop in
  let out := read web_DataReader fetch_live_quote _today self ticker source stop w in
  quotes (trace out.2)
  = quotes (trace w) ++
    match (working_table web_DataReader self ticker source e w).1 with
    | Ok _ => if decide (e = _today) then [EvQuote ticker] else []
    | Raise _ => []
    end.
Proof.
  intros e out. subst e out. apply quote_trace_of_read.
Qed.

(** ** File names, once more *)

Section FileNames.

Lemma string_length_app (a b : string) :
  String.length (a ++ b)%string = String.length a + String.length b.
Proof. induction a as [|x a IH]; simpl; [reflexivity | now rewrite IH]. Qed.

Lemma string_app_inv_tail (a b c : string) : (a ++ c)%string = (b ++ c)%string -> a = b.
Proof.
  revert b. induction a as [|x a IH]; intros [|y b] H.
  - reflexivity.
  - apply (f_equal String.length) in H. rewrite !string_length_app in H.
    simpl in H. lia.
  - apply (f_equal String.length) in H. rewrite !string_length_app in H.
    simpl in H. lia.
  - change (String x (a ++ c) = String y (b ++ c))%string in H.
    injection H as -> H. f_equal. now apply IH.
Qed.

End FileNames.

(** X8: two distinct cache keys that share the ticker, or share the source,
    never share a file. (Keys that differ in both may collide.) *)
Theorem keys_sharing_a_component_get_distinct_files (source source' ticker ticker' : string) :
  source = source' \/ ticker = ticker' ->
  (source, ticker) <> (source', ticker') ->
  _market_data_filename source ticker <> _market_data_filename source' ticker'.
Proof.
  intros [<-|<-] Hne Heq.
  - apply Hne. f_equal. unfold _market_data_filename in Heq.
    case_decide; now apply string_app_inv_tail in Heq.
  - destruct (decide (source = "reference")) as [->|Hs].
    + destruct (decide (source' = "reference")) as [->|Hs']; [now apply Hne|].
      symmetry in Heq. now apply filename_reference_ne in Heq.
    + destruct (decide (source' = "reference")) as [->|Hs'].
      * now apply filename_reference_ne in Heq.
      * unfold _market_data_filename in Heq. rewrite !decide_False in Heq by assumption.
        apply string_app_inv_head in Heq.
        change (String "." (source ++ ".csv") = String "." (source' ++ ".csv"))%string in Heq.
        injection Heq as Heq.
        apply string_app_inv_tail in Heq. apply Hne. now rewrite Heq.
Qed.

Lemma keys_sharing_a_component_get_distinct_files_witness :
  _market_data_filename "yahoo" "GOOG" <> _market_data_filename "google" "GOOG" /\
  _market_data_filename "yahoo" "GOOG" <> _market_data_filename "yahoo" "GOOGL".
Proof.
  split.
  - apply keys_sharing_a_component_get_distinct_files; [right; reflexivity | discriminate].
  - apply keys_sharing_a_component_get_distinct_files; [left; reflexivity | discriminate].
Defined.

(** ** The sample vendor *)

Section SampleVendor.

Lemma normalize_to_frame (t : Table) : normalize (Sample.to_frame t) = Ok t.
Proof.
  rewrite normalize_cases. cbn. f_equal.
  induction t as [|[d [o h lo c ad v]] t IH]; [reflexivity|].
  cbn. f_equal. exact IH.
Qed.

Lemma sample_vendor_serves_slices (source : string) (a b : date) :
  rbind (Sample.vendor "GOOG" source a b) normalize = Ok (ix_to b (ix_from a Sample.goog)).
Proof.
  unfold Sample.vendor. rewrite decide_True by reflexivity. cbn [rbind].
  apply normalize_to_frame.
Qed.

Lemma sample_goog_sorted : sorted_unique Sample.goog.
Proof. apply (bool_decide_unpack _). vm_compute. exact I. Qed.

End SampleVendor.

(** ** The invariant of the tables *)

Section Sortedness.

Variable web_DataReader : string -> string -> date -> date -> result DataFrame.
Variable fetch_live_quote : string -> option (date * scalar).
Variable _today : date.

Lemma sorted_filter (P : date -> Prop) `{!forall x, Decision (P x)} (l : list date) :
  StronglySorted date_lt l -> StronglySorted date_lt (filter P l).
Proof.
  induction 1 as [|x l Hs IH Hx]; [constructor|].
  rewrite filter_cons. case_decide; [|assumption].
  constructor; [assumption|].
  rewrite Forall_forall in *. intros y [_ Hy]%list_elem_of_filter. auto.
Qed.

Lemma sorted_ix_to (stop : date) (df : Table) :
  sorted_unique df -> sorted_unique (ix_to stop df).
Proof. unfold sorted_unique. rewrite index_ix_to. apply sorted_filter. Qed.

Lemma sorted_ix_from (start : date) (df : Table) :
  sorted_unique df -> sorted_unique (ix_from start df).
Proof. unfold sorted_unique. rewrite index_ix_from. apply sorted_filter. Qed.

Lemma sorted_combine_first (self other : Table) : sorted_unique (combine_first self other).
Proof. unfold sorted_unique. rewrite index_combine_first. apply outer_join_sorted. Qed.

Lemma sorted_set_adj_close (label : date) (v : scalar) (df : Table) :
  sorted_unique df -> sorted_unique (set_adj_close label v df).
Proof. unfold sorted_unique. now rewrite index_set_adj_close. Qed.

Lemma ensures_bind {A B} (P : world -> Prop) (Q : A -> Prop) (R : B -> Prop)
    (m : M A) (k : A -> M B) :
  ensures P Q m -> (forall a, Q a -> ensures P R (k a)) -> ensures P R (bind m k).
Proof.
  intros Hm Hk w HP. unfold bind. destruct (Hm w HP) as [HP1 HQ].
  destruct (m w) as [[a|e] w1]; cbn [fst snd] in *.
  - apply Hk; auto.
  - split; [assumption | discriminate].
Qed.

Lemma ensures_ret {A} (P : world -> Prop) (Q : A -> Prop) (a : A) :
  Q a -> ensures P Q (ret a).
Proof. intros HQ w HP. split; [assumption|]. now intros a' [= <-]. Qed.

Lemma ensures_lift {A} (P : world -> Prop) (Q : A -> Prop) (r : result A) :
  (forall a, r = Ok a -> Q a) -> ensures P Q (lift r).
Proof. intros HQ w HP. split; [assumption|]. exact HQ. Qed.

Lemma ensures_read_cache (ticker source : string) :
  ensures cache_sorted (fun o => forall t, o = Some t -> sorted_unique t)
    (_read_cache ticker source).
Proof.
  intros w HP. unfold _read_cache. cbv zeta.
  destruct (files w !! _market_data_filename source ticker) as [df|] eqn:Hf; cbn.
  - split; [exact HP|]. intros o [= <-] t [= <-]. eapply HP; eassumption.
  - split; [exact HP|]. intros o [= <-] t. discriminate.
Qed.

Lemma ensures_save (ticker source : string) (df : Table) :
  sorted_unique df ->
  ensures cache_sorted (fun _ : unit => True) (_save_raw_data ticker source df).
Proof.
  intros Hs w HP. split; [|auto].
  unfold cache_sorted, _save_raw_data, log. cbn [files snd]. intros name t.
  rewrite lookup_insert. case_decide; [intros [= <-]; assumption | apply HP].
Qed.

Lemma ensures_update (ticker : string) (df : Table) :
  sorted_unique df ->
  ensures cache_sorted sorted_unique (_update_with_live_quote fetch_live_quote ticker df).
Proof.
  intros Hs w HP. rewrite update_with_live_quote_trace. split; [exact HP|].
  unfold _update_with_live_quote.
  destruct (fetch_live_quote ticker) as [[qd qv]|]; cbn; [|now intros x [= <-]].
  destruct (index_last df) as [last_date|err]; cbn; [|discriminate].
  case_decide; cbn; intros x [= <-]; [now apply sorted_set_adj_close | assumption].
Qed.

Lemma ensures_read_raw_data (self : DataReader) (ticker source : string)
    (start stop : date) :
  (forall a b t, rbind (web_DataReader ticker source a b) normalize = Ok t ->
                 sorted_unique t) ->
  ensures cache_sorted sorted_unique
    (_read_raw_data web_DataReader self ticker source start stop).
Proof.
  intros Hweb.
  assert (Hfetch : forall a b,
            ensures cache_sorted sorted_unique (_fetch_web_data web_DataReader ticker source a b)).
  { intros a b w HP. split; [exact HP|]. cbn. apply Hweb. }
  unfold _read_raw_data. destruct (enable_cache self); cbn [negb]; [|apply Hfetch].
  eapply ensures_bind; [apply ensures_read_cache|].
  intros [cache_df|] Hc; [|apply Hfetch].
  eapply (ensures_bind _ (fun _ => True)); [now apply ensures_lift|].
  intros cache_end _. case_decide.
  - apply ensures_ret. apply sorted_ix_to. now apply Hc.
  - eapply ensures_bind; [apply Hfetch|]. intros web_df _.
    apply ensures_ret. apply sorted_combine_first.
Qed.

End Sortedness.

(** X9: [read] keeps the invariant of the tables. If every table of the
    cache directory has strictly increasing dates and the vendor's answers
    (once normalized) do, then after the call, whatever its outcome, every
    table of the cache directory still has, and so has the table returned. *)
Theorem read_keeps_tables_sorted
    (web_DataReader : string -> string -> date -> date -> result DataFrame)
    (fetch_live_quote : string -> option (date * scalar)) (_today : date)
    (self : DataReader) (ticker source : string) (stop : option date) (w : world) :
  cache_sorted w ->
  (forall a b t, rbind (web_DataReader ticker source a b) normalize = Ok t ->
                 sorted_unique t) ->
  let out := read web_DataReader fetch_live_quote _today self ticker source stop w in
  cache_sorted out.2 /\ forall df, out.1 = Ok df -> sorted_unique df.
Proof.
  intros HP Hweb out. subst out. revert w HP.
  change (ensures cache_sorted sorted_unique
            (read web_DataReader fetch_live_quote _today self ticker source stop)).
  unfold read. cbv zeta.
  eapply ensures_bind; [now apply ensures_read_raw_data|]. intros raw_df Hraw.
  eapply ensures_bind; [now apply ensures_save|]. intros _ _.
  eapply (ensures_bind _ sorted_unique).
  { destruct (use_reference self); [|now apply ensures_ret].
    eapply ensures_bind; [apply ensures_read_cache|]. intros [ref_df|] Href.
    - apply ensures_lift. unfold _combine_ref_and_raw_data.
      destruct (index_last ref_df) as [ref_end|err]; cbn; [|discriminate].
      intros x [= <-]. apply sorted_combine_first.
    - apply ensures_lift. now intros x [= <-]. }
  intros df Hdf. eapply (ensures_bind _ sorted_unique).
  { case_decide; [now apply ensures_update | now apply ensures_ret]. }
  intros df' Hdf'. eapply ensures_bind; [now apply ensures_save|].
  intros _ _. now apply ensures_ret.
Qed.

Lemma read_keeps_tables_sorted_witness :
  let out := read Sample.vendor (Sample.quote_on "2017-11-02" 1031) "2017-11-02"
               Sample.with_reference "GOOG" "yahoo" None
               (Sample.world_with "GOOG.csv" Sample.goog_ref) in
  cache_sorted out.2 /\ forall df, out.1 = Ok df -> sorted_unique df.
Proof.
  apply (read_keeps_tables_sorted Sample.vendor (Sample.quote_on "2017-11-02" 1031)
           "2017-11-02" Sample.with_reference "GOOG" "yahoo" None
           (Sample.world_with "GOOG.csv" Sample.goog_ref)).
  - intros name t. unfold Sample.world_with. cbn [files].
    rewrite lookup_singleton. case_decide; [|discriminate].
    intros [= <-]. apply (bool_decide_unpack _). vm_compute. exact I.
  - intros a b t. rewrite sample_vendor_serves_slices. intros [= <-].
    apply sorted_ix_to, sorted_ix_from, sample_goog_sorted.
Defined.

(** ** What a successful [read] leaves behind *)

(** X10: the table a successful [read] returns is the table it leaves
    under the reference key, also when the reference overlay is disabled. In
    that case the former reference entry plays no part: the returned table
    has the dates of the raw series of step 1 and, outside the Adj Close
    column, its cells. *)
Theorem returned_table_becomes_reference
    (web_DataReader : string -> string -> date -> date -> result DataFrame)
    (fetch_live_quote : string -> option (date * scalar)) (_today : date)
    (self : DataReader) (ticker source : string) (stop : option date)
    (w w' : world) (df : Table) :
  read web_DataReader fetch_live_quote _today self ticker source stop w = (Ok df, w') ->
  files w' !! _market_data_filename "reference" ticker = Some df /\
  (use_reference self = false ->
   exists (raw_df : Table) (w1 : world),
     _read_raw_data web_DataReader self ticker source origin (end_or_today _today stop) w
       = (Ok raw_df, w1) /\
     index df = index raw_df /\
     forall d c, c <> ColAdjClose -> value_at df d c = value_at raw_df d c).
Proof.
  intros Hread.
  destruct (read_ok_inv _ _ _ _ _ _ _ _ _ _ Hread) as (df0 & w2 & w3 & Hwork & Hlive & ->).
  split; [cbn [files]; apply lookup_insert_eq|].
  intros Href. unfold working_table in Hwork. unfold bind at 1 in Hwork.
  destruct (_read_raw_data web_DataReader self ticker source origin
              (end_or_today _today stop) w) as [[raw_df|err] w1]; [|discriminate].
  rewrite (bind_ok _ _ _ _ _ (save_raw_data_eq _ _ _ _)), Href in Hwork.
  unfold ret in Hwork. injection Hwork as <- <-.
  exists raw_df, w1. split; [reflexivity|].
  case_decide; [|unfold ret in Hlive; injection Hlive as <- _; auto].
  unfold _update_with_live_quote in Hlive.
  destruct (fetch_live_quote ticker) as [[qd qv]|]; [|injection Hlive as <- _; auto].
  destruct (index_last raw_df) as [last_date|err]; [|discriminate].
  case_decide; injection Hlive as <- _; [|auto].
  split; [apply index_set_adj_close|]. intros; now apply value_at_set_adj_close.
Qed.

Lemma returned_table_becomes_reference_witness :
  let out := read Sample.vendor (Sample.quote_on "2017-11-02" 1031) "2017-11-02"
               Sample.caching "GOOG" "yahoo" None
               (Sample.world_with "GOOG.csv" Sample.goog_ref) in
  files out.2 !! "GOOG.csv"
  = Some (take 3 Sample.goog ++
          [("2017-11-02", Sample.row 1021 1028 1017 1025 1031 (Sample.px 1048970))]).
Proof.
  cbv zeta.
  apply (returned_table_becomes_reference Sample.vendor (Sample.quote_on "2017-11-02" 1031)
           "2017-11-02" Sample.caching "GOOG" "yahoo" None
           (Sample.world_with "GOOG.csv" Sample.goog_ref)).
  vm_compute. reflexivity.
Defined.

(** ** Tables without rows *)

Section EmptyTables.

Variable web_DataReader : string -> string -> date -> date -> result DataFrame.
Variable fetch_live_quote : string -> option (date * scalar).
Variable _today : date.

Lemma ix_to_all_later (stop : date) (df : Table) :
  (forall d, d ∈ index df -> date_lt stop d) -> ix_to stop df = [].
Proof.
  unfold ix_to, index. induction df as [|[d r] df IH]; [reflexivity|].
  intros Hall. rewrite filter_cons. cbn [fst].
  rewrite decide_False.
  - apply IH. intros d' Hd'. apply Hall. rewrite fmap_cons. now right.
  - intros Hle%date_le_not_lt. apply Hle, Hall. rewrite fmap_cons. left.
Qed.

(** Once the file of (ticker, source) holds a table without rows, every
    read of the key with caching enabled stops at [cache_df.index[-1]]. *)
Lemma read_on_empty_cache (self : DataReader) (ticker source : string)
    (stop : option date) (w : world) :
  enable_cache self = true ->
  files w !! _market_data_filename source ticker = Some [] ->
  read web_DataReader fetch_live_quote _today self ticker source stop w
  = (Raise IndexError, log (EvReadFile (_market_data_filename source ticker)) w).
Proof.
  intros Hen Hfile. apply read_step1_raise.
  now apply (read_raw_data_bad_cache _ _ _ _ _ _ _ []).
Qed.

End EmptyTables.

(** X11: a read for an end date earlier than every cached date empties the
    cache entry, and the entry stays unusable: the call asks the vendor for
    nothing and leaves a table without rows under (ticker, source), after
    which every read of that key with caching enabled, for any end date and
    from any vendor, raises [IndexError]. *)
Theorem early_end_empties_cache_entry
    (web_DataReader : string -> string -> date -> date -> result DataFrame)
    (fetch_live_quote : string -> option (date * scalar)) (_today : date)
    (self : DataReader) (ticker source : string) (stop : option date)
    (w : world) (cache_df : Table) :
  enable_cache self = true ->
  source <> "reference" ->
  files w !! _market_data_filename source ticker = Some cache_df ->
  cache_df <> [] ->
  (forall d, d ∈ index cache_df -> date_lt (end_or_today _today stop) d) ->
  let out := read web_DataReader fetch_live_quote _today self ticker source stop w in
  files out.2 !! _market_data_filename source ticker = Some [] /\
  fetches (trace out.2) = fetches (trace w) /\
  forall web' quote' today' (self' : DataReader) (stop' : option date),
    enable_cache self' = true ->
    (read web' quote' today' self' ticker source stop' out.2).1 = Raise IndexError.
Proof.
  intros Hen Hsrc Hfile Hne Hall out.
  assert (Hlast : exists cache_end, index_last cache_df = Ok cache_end).
  { destruct cache_df as [|[d r] cache_df]; [contradiction|].
    apply (index_last_nonempty _ d). unfold index. rewrite fmap_cons. left. }
  destruct Hlast as [cache_end Hlast].
  assert (Hlt : date_lt (end_or_today _today stop) cache_end)
    by (apply Hall; now apply index_last_elem_of).
  pose proof (read_raw_data_beyond web_DataReader self ticker source origin
                (end_or_today _today stop) w cache_df cache_end Hen Hfile Hlast Hlt) as Hraw.
  rewrite ix_to_all_later in Hraw by assumption.
  assert (Hempty : files out.2 !! _market_data_filename source ticker = Some []).
  { subst out. eapply read_persists_raw; eassumption. }
  split; [exact Hempty|]. split.
  - subst out. rewrite read_fetches, Hraw. cbn. rewrite fetches_snoc. apply app_nil_r.
  - intros web' quote' today' self' stop' Hen'.
    now rewrite (read_on_empty_cache web' quote' today' self' ticker source stop' out.2).
Qed.

Lemma early_end_empties_cache_entry_witness :
  let w := Sample.world_with "GOOG.yahoo.csv" Sample.goog in
  let out := read Sample.vendor Sample.no_quote "2017-11-03" Sample.caching
               "GOOG" "yahoo" (Some "2017-01-01") w in
  out.1 = Ok [] /\
  (read Sample.vendor Sample.no_quote "2017-11-03" Sample.caching
     "GOOG" "yahoo" (Some "2017-11-02") out.2).1 = Raise IndexError.
Proof.
  cbv zeta. split; [vm_compute; reflexivity|].
  destruct (early_end_empties_cache_entry Sample.vendor Sample.no_quote "2017-11-03"
              Sample.caching "GOOG" "yahoo" (Some "2017-01-01")
              (Sample.world_with "GOOG.yahoo.csv" Sample.goog) Sample.goog)
    as (_ & _ & Hnext).
  - reflexivity.
  - discriminate.
  - reflexivity.
  - discriminate.
  - intros d Hd. unfold Sample.goog, index in Hd. cbn in Hd.
    repeat (apply elem_of_cons in Hd as [->|Hd]; [reflexivity|]).
    now apply elem_of_nil in Hd.
  - now apply Hnext.
Defined.

(** X12: a reference entry without rows blocks the reference overlay for
    good. With the overlay enabled and a vendor source, a read whose step 1
    succeeds raises [IndexError] at [ref_df.index[-1]]; it has by then
    written the raw series under (ticker, source), and it leaves the empty
    reference entry in place, so the next read meets it again. *)
Theorem empty_reference_blocks_read
    (web_DataReader : string -> string -> date -> date -> result DataFrame)
    (fetch_live_quote : string -> option (date * scalar)) (_today : date)
    (self : DataReader) (ticker source : string) (stop : option date)
    (w w1 : world) (raw_df : Table) :
  use_reference self = true ->
  source <> "reference" ->
  files w !! _market_data_filename "reference" ticker = Some [] ->
  _read_raw_data web_DataReader self ticker source origin (end_or_today _today stop) w
    = (Ok raw_df, w1) ->
  let out := read web_DataReader fetch_live_quote _today self ticker source stop w in
  out.1 = Raise IndexError /\
  files out.2 !! _market_data_filename source ticker = Some raw_df /\
  files out.2 !! _market_data_filename "reference" ticker = Some [] /\
  quotes (trace out.2) = quotes (trace w).
Proof.
  intros Href Hsrc Hfile Hraw out.
  pose proof (working_table_reference web_DataReader self ticker source
                (end_or_today _today stop) w w1 raw_df [] Href Hsrc Hfile Hraw) as Hwork.
  cbn [_combine_ref_and_raw_data index_last index fmap list_fmap last rbind] in Hwork.
  assert (Hout : out.1 = Raise IndexError /\
                 files out.2 = <[_market_data_filename source ticker := raw_df]> (files w)).
  { subst out. rewrite read_steps, (bind_raise _ _ _ _ _ Hwork).
    cbn [fst snd files]. auto. }
  destruct Hout as [Hres Hfiles]. split; [exact Hres|]. rewrite Hfiles.
  split; [apply lookup_insert_eq|]. split.
  - rewrite lookup_insert_ne by now apply filename_reference_ne. exact Hfile.
  - subst out. rewrite quote_trace_of_read.
    rewrite Hwork. cbn [fst]. apply app_nil_r.
Qed.

Lemma empty_reference_blocks_read_witness :
  let w := Sample.world_with "GOOG.csv" [] in
  let out := read Sample.vendor Sample.no_quote "2017-11-03" Sample.with_reference
               "GOOG" "yahoo" (Some "2017-09-01") w in
  out.1 = Raise IndexError /\
  files out.2 !! "GOOG.yahoo.csv" = Some (take 2 Sample.goog) /\
  files out.2 !! "GOOG.csv" = Some [].
Proof.
  cbv zeta.
  destruct (empty_reference_blocks_read Sample.vendor Sample.no_quote "2017-11-03"
              Sample.with_reference "GOOG" "yahoo" (Some "2017-09-01")
              (Sample.world_with "GOOG.csv" [])
              (_read_raw_data Sample.vendor Sample.with_reference "GOOG" "yahoo" origin
                 "2017-09-01" (Sample.world_with "GOOG.csv" [])).2
              (take 2 Sample.goog))
    as (Hres & Hraw & Href & _);
    [reflexivity | discriminate | reflexivity | vm_compute; reflexivity |].
  split; [exact Hres|]. split; [exact Hraw | exact Href].
Defined.

(** ** Two reads in a row *)

Lemma list_filter_ext_in {A} (P Q : A -> Prop)
    `{!forall x, Decision (P x), !forall x, Decision (Q x)} (l : list A) :
  (forall x, x ∈ l -> (P x <-> Q x)) -> filter P l = filter Q l.
Proof.
  induction l as [|x l IH]; intros Hext; [reflexivity|].
  rewrite !filter_cons.
  assert (Hx : P x <-> Q x) by (apply Hext; left).
  rewrite IH by (intros y Hy; apply Hext; now right).
  destruct (decide (P x)), (decide (Q x)); tauto.
Qed.

(** The vendor's series up to [e1], last dated [L1], against the series up
    to a later [e2]: the part of the later series from [L1] on is what the
    vendor serves for [L1, e2], and its part up to [L1] is the earlier
    series. *)
Lemma slices_of_later_series (full : Table) (e1 e2 L1 : date) :
  sorted_unique full ->
  date_le e1 e2 ->
  index_last (ix_to e1 (ix_from origin full)) = Ok L1 ->
  ix_from L1 (ix_to e2 (ix_from origin full)) = ix_to e2 (ix_from L1 full) /\
  ix_to L1 (ix_to e2 (ix_from origin full)) = ix_to e1 (ix_from origin full).
Proof.
  intros Hs He HL1.
  assert (Hin : L1 ∈ index (ix_to e1 (ix_from origin full)))
    by now apply index_last_elem_of.
  pose proof Hin as Hin'.
  rewrite index_ix_to, list_elem_of_filter, index_ix_from, list_elem_of_filter in Hin'.
  destruct Hin' as (HL1e1 & HoL1 & _).
  assert (Hmax : forall d, d ∈ index (ix_to e1 (ix_from origin full)) -> date_le d L1).
  { intros d Hd. eapply sorted_last_max; [|  |exact Hd].
    - now apply sorted_ix_to, sorted_ix_from.
    - unfold index_last in HL1.
      destruct (last (index (ix_to e1 (ix_from origin full)))); congruence. }
  split.
  - unfold ix_to, ix_from. rewrite !list_filter_filter.
    apply list_filter_ext_in. intros [d r] _. cbn [fst].
    split; [tauto|]. intros [H1 H2]. repeat split; try assumption.
    eapply date_le_trans; eassumption.
  - unfold ix_to, ix_from. rewrite !list_filter_filter.
    apply list_filter_ext_in. intros [d r] Hdr. cbn [fst]. split.
    + intros H. destruct_and!. split; [|assumption].
      now apply (date_le_trans d L1 e1).
    + intros [H1 H2].
      assert (Hd : date_le d L1).
      { apply Hmax. rewrite index_ix_to, list_elem_of_filter, index_ix_from,
          list_elem_of_filter.
        split; [assumption|]. split; [assumption|].
        unfold index. apply (list_elem_of_fmap_2 fst _ (d, r)), Hdr. }
      assert (Hd2 : date_le d e2) by now apply (date_le_trans d e1 e2).
      tauto.
Qed.

Section SuccessiveReads.

Variable web_DataReader : string -> string -> date -> date -> result DataFrame.
Variable fetch_live_quote : string -> option (date * scalar).
Variable _today : date.

(** The first read of a key: nothing is cached, the vendor is asked for
    [origin, end]. *)
Lemma first_read (self : DataReader) (ticker source : string) (stop : option date)
    (w : world) (raw_df : Table) :
  enable_cache self = true ->
  source <> "reference" ->
  files w !! _market_data_filename source ticker = None ->
  files w !! _market_data_filename "reference" ticker = None ->
  rbind (web_DataReader ticker source origin (end_or_today _today stop)) normalize
    = Ok raw_df ->
  end_or_today _today stop <> _today \/ fetch_live_quote ticker = None ->
  exists w',
    read web_DataReader fetch_live_quote _today self ticker source stop w = (Ok raw_df, w') /\
    files w' = <[_market_data_filename "reference" ticker := raw_df]>
                 (<[_market_data_filename source ticker := raw_df]> (files w)).
Proof.
  intros Hen Hsrc Hraw Href Hweb Hidle.
  assert (Hstep : _read_raw_data web_DataReader self ticker source origin
                    (end_or_today _today stop) w
                  = (Ok raw_df, log (EvFetch ticker source origin (end_or_today _today stop)) w)).
  { rewrite read_raw_data_no_entry by assumption. unfold _fetch_web_data. now rewrite Hweb. }
  assert (Hwork : exists w2,
            working_table web_DataReader self ticker source (end_or_today _today stop) w
              = (Ok raw_df, w2) /\
            files w2 = <[_market_data_filename source ticker := raw_df]> (files w)).
  { destruct (use_reference self) eqn:Huse.
    - eexists. split; [eapply working_table_no_reference; eassumption | reflexivity].
    - eexists. split; [eapply working_table_plain; eassumption | reflexivity]. }
  destruct Hwork as (w2 & Hwork & Hf2).
  destruct (live_overlay_idle fetch_live_quote _today ticker _ raw_df w2 Hidle)
    as (w3 & Hlive & Hf3).
  eexists. split; [eapply read_finish; eassumption|].
  cbn [files]. now rewrite Hf3, Hf2.
Qed.

End SuccessiveReads.

Lemma same_dates_lookup (w w' : world) (name : string) (df : Table) :
  same_dates w w' -> files w !! name = Some df ->
  exists df', files w' !! name = Some df' /\ index df' = index df.
Proof.
  intros [_ Hf] Hdf.
  assert (H : (index <$> files w') !! name = (index <$> files w) !! name) by now rewrite Hf.
  rewrite !lookup_fmap, Hdf in H. destruct (files w' !! name) as [df'|]; [|discriminate].
  injection H as H. now exists df'.
Qed.

Lemma index_last_same_index (a b : Table) :
  index a = index b -> index_last a = index_last b.
Proof. unfold index_last. now intros ->. Qed.

Lemma index_combine_first_cover (full a b : Table) :
  sorted_unique full ->
  (forall x, x ∈ index a \/ x ∈ index b <-> x ∈ index full) ->
  index (combine_first a b) = index full.
Proof.
  intros Hs Hx. rewrite index_combine_first.
  apply sorted_ext; [apply outer_join_sorted | exact Hs |].
  intros x. now rewrite elem_of_outer_join.
Qed.

(** X13: two reads of one key in a row, on a cache directory that knows
    nothing of the key, against a vendor that serves the rows of one sorted
    series [full] for any range. The end dates are [e1 <= e2], no live
    quote applies, and the first answer has rows, last dated [L1]. Between
    the two calls the files may give back other cells than were written,
    as long as they give back the dates. Then the first call returns the
    series up to [e1]; the vendor is asked exactly twice, for [origin, e1]
    and then for [L1, e2] only; and the second call returns a table with
    the dates of the series up to [e2], whose rows dated after [L1] are
    the vendor's, with or without the reference overlay. The rows up to
    [L1] of the second table come from the files. *)
Theorem successive_reads_reconstruct
    (web_DataReader : string -> string -> date -> date -> result DataFrame)
    (fetch_live_quote : string -> option (date * scalar)) (_today : date)
    (self : DataReader) (ticker source : string) (stop1 stop2 : option date)
    (w w1 : world) (full : Table) (L1 : date) :
  enable_cache self = true ->
  source <> "reference" ->
  files w !! _market_data_filename source ticker = None ->
  files w !! _market_data_filename "reference" ticker = None ->
  sorted_unique full ->
  (forall a b, rbind (web_DataReader ticker source a b) normalize
               = Ok (ix_to b (ix_from a full))) ->
  date_le (end_or_today _today stop1) (end_or_today _today stop2) ->
  fetch_live_quote ticker = None \/
    (end_or_today _today stop1 <> _today /\ end_or_today _today stop2 <> _today) ->
  index_last (ix_to (end_or_today _today stop1) (ix_from origin full)) = Ok L1 ->
  same_dates (read web_DataReader fetch_live_quote _today self ticker source stop1 w).2 w1 ->
  let e1 := end_or_today _today stop1 in
  let e2 := end_or_today _today stop2 in
  let out1 := read web_DataReader fetch_live_quote _today self ticker source stop1 w in
  let out2 := read web_DataReader fetch_live_quote _today self ticker source stop2 w1 in
  out1.1 = Ok (ix_to e1 (ix_from origin full)) /\
  fetches (trace out2.2)
  = fetches (trace w) ++ [EvFetch ticker source origin e1; EvFetch ticker source L1 e2] /\
  exists df2,
    out2.1 = Ok df2 /\
    index df2 = index (ix_to e2 (ix_from origin full)) /\
    (forall d, date_lt L1 d -> loc df2 d = loc (ix_to e2 (ix_from origin full)) d).
Proof.
  intros Hen Hsrc Hraw Href Hs Hweb He Hidle HL1 Hsame e1 e2 out1 out2.
  fold e1 in HL1, He, Hidle. fold e2 in He, Hidle.
  assert (Hidle1 : e1 <> _today \/ fetch_live_quote ticker = None) by tauto.
  assert (Hidle2 : e2 <> _today \/ fetch_live_quote ticker = None) by tauto.
  destruct (slices_of_later_series full e1 e2 L1 Hs He HL1) as [Hfrom Hto].
  set (t1 := ix_to e1 (ix_from origin full)) in *.
  set (t2 := ix_to e2 (ix_from origin full)) in *.
  assert (Hs2 : sorted_unique t2) by now apply sorted_ix_to, sorted_ix_from.
  (* the first call *)
  destruct (first_read web_DataReader fetch_live_quote _today self ticker source stop1 w
              t1 Hen Hsrc Hraw Href (Hweb _ _) Hidle1)
    as (w1' & Hread1 & Hf1).
  assert (Hfetch1 : fetches (trace w1)
                    = fetches (trace w) ++ [EvFetch ticker source origin e1]).
  { destruct Hsame as [-> _]. rewrite read_fetches. fold e1.
    rewrite read_raw_data_no_entry by assumption. cbn. now rewrite fetches_snoc. }
  subst out1. rewrite Hread1 in Hsame |- *. cbn [fst snd] in Hsame |- *.
  split; [reflexivity|].
  (* the second call finds the dates of the first answer under both keys *)
  destruct (same_dates_lookup w1' w1 (_market_data_filename source ticker) t1 Hsame)
    as (cache_df & Hraw1 & Hcache).
  { rewrite Hf1, lookup_insert_ne by (apply not_eq_sym; now apply filename_reference_ne).
    apply lookup_insert_eq. }
  destruct (same_dates_lookup w1' w1 (_market_data_filename "reference" ticker) t1 Hsame)
    as (ref_df & Href1 & Hrefd).
  { rewrite Hf1. apply lookup_insert_eq. }
  assert (HLc : index_last cache_df = Ok L1)
    by now rewrite (index_last_same_index _ _ Hcache).
  assert (HLr : index_last ref_df = Ok L1)
    by now rewrite (index_last_same_index _ _ Hrefd).
  assert (Hnlt : ~ date_lt e2 L1).
  { apply date_le_not_lt. eapply date_le_trans; [|exact He].
    now apply index_last_ix_to in HL1. }
  set (raw2 := combine_first (ix_to e2 (ix_from L1 full)) cache_df).
  assert (Hstep : _read_raw_data web_DataReader self ticker source origin e2 w1
            = (Ok raw2,
               log (EvFetch ticker source L1 e2)
                 (log (EvReadFile (_market_data_filename source ticker)) w1))).
  { rewrite (read_raw_data_incremental _ _ _ _ _ _ _ _ _ Hen Hraw1 HLc Hnlt).
    now rewrite Hweb. }
  assert (Hold : forall a : Table, index a = index t1 ->
            forall x, x ∈ index a <-> x ∈ index t2 /\ date_le x L1).
  { intros a -> x. rewrite <- Hto, index_ix_to, list_elem_of_filter. tauto. }
  assert (Hlate : forall d, date_lt L1 d -> ~ date_le d L1).
  { intros d Hd Hle. now apply (date_le_not_lt d L1). }
  assert (Hidx2 : index raw2 = index t2).
  { apply index_combine_first_cover; [assumption|]. intros x.
    rewrite <- Hfrom, index_ix_from, list_elem_of_filter, (Hold cache_df Hcache).
    destruct (date_le_total L1 x); tauto. }
  assert (Hloc2 : forall d, date_lt L1 d -> loc raw2 d = loc t2 d).
  { intros d Hd. unfold raw2. rewrite loc_combine_first_only_self.
    - rewrite <- Hfrom, loc_ix_from. rewrite decide_True; [reflexivity|].
      now apply date_lt_le.
    - rewrite (Hold cache_df Hcache). intros [_ Hle]. exact (Hlate d Hd Hle). }
  assert (Hwork : exists w2 df2,
            working_table web_DataReader self ticker source e2 w1 = (Ok df2, w2) /\
            index df2 = index t2 /\
            (forall d, date_lt L1 d -> loc df2 d = loc t2 d)).
  { destruct (use_reference self) eqn:Huse.
    - eexists _, (combine_first ref_df (ix_from L1 raw2)). split; [|split].
      + rewrite (working_table_reference _ _ _ _ _ _ _ _ _ Huse Hsrc Href1 Hstep).
        unfold _combine_ref_and_raw_data. rewrite HLr. reflexivity.
      + apply index_combine_first_cover; [assumption|]. intros x.
        rewrite index_ix_from, list_elem_of_filter, Hidx2, (Hold ref_df Hrefd).
        destruct (date_le_total L1 x); tauto.
      + intros d Hd. rewrite loc_combine_first_only_other.
        * rewrite loc_ix_from, decide_True by now apply date_lt_le.
          now apply Hloc2.
        * rewrite (Hold ref_df Hrefd). intros [_ Hle]. exact (Hlate d Hd Hle).
    - eexists _, raw2. split; [|split; assumption].
      eapply working_table_plain; eassumption. }
  destruct Hwork as (w2 & df2 & Hwork & Hidx & Hloc).
  destruct (live_overlay_idle fetch_live_quote _today ticker e2 df2 w2 Hidle2)
    as (w3 & Hlive & _).
  subst out2. split.
  - rewrite read_fetches. fold e2.
    rewrite (read_raw_data_incremental_fetches _ self ticker source origin e2 w1
               cache_df L1) by assumption.
    rewrite Hfetch1, <- app_assoc. reflexivity.
  - exists df2. rewrite (read_finish _ _ _ _ _ _ _ _ _ _ _ _ Hwork Hlive).
    split; [reflexivity|]. split; assumption.
Qed.

(** The second read finds, under both keys, the dates the first read wrote
    with other adjusted closes: the table it returns has the four dates of
    the series, and the two rows after 2017-09-01 are the vendor's. *)
Lemma successive_reads_reconstruct_witness :
  let out1 := read Sample.vendor (Sample.quote_on "2017-11-02" 1031) "2017-11-03"
                Sample.with_reference "GOOG" "yahoo" (Some "2017-09-15")
                Sample.empty_world in
  let w1 := mkWorld {[ "GOOG.yahoo.csv" := Sample.goog_ref; "GOOG.csv" := Sample.goog_ref ]}
              (trace out1.2) in
  let out2 := read Sample.vendor (Sample.quote_on "2017-11-02" 1031) "2017-11-03"
                Sample.with_reference "GOOG" "yahoo" (Some "2017-11-02") w1 in
  out1.1 = Ok (take 2 Sample.goog) /\
  fetches (trace out2.2)
  = [EvFetch "GOOG" "yahoo" "1926-01-01" "2017-09-15";
     EvFetch "GOOG" "yahoo" "2017-09-01" "2017-11-02"] /\
  exists df2,
    out2.1 = Ok df2 /\
    index df2 = index Sample.goog /\
    loc df2 "2017-11-01" = loc Sample.goog "2017-11-01" /\
    loc df2 "2017-11-02" = loc Sample.goog "2017-11-02".
Proof.
  cbv zeta.
  destruct (successive_reads_reconstruct
              Sample.vendor (Sample.quote_on "2017-11-02" 1031) "2017-11-03"
              Sample.with_reference "GOOG" "yahoo" (Some "2017-09-15") (Some "2017-11-02")
              Sample.empty_world
              (mkWorld {[ "GOOG.yahoo.csv" := Sample.goog_ref; "GOOG.csv" := Sample.goog_ref ]}
                 (trace (read Sample.vendor (Sample.quote_on "2017-11-02" 1031) "2017-11-03"
                           Sample.with_reference "GOOG" "yahoo" (Some "2017-09-15")
                           Sample.empty_world).2))
              Sample.goog "2017-09-01")
    as (H1 & H2 & df2 & Hout & Hidx & Hloc).
  - reflexivity.
  - discriminate.
  - reflexivity.
  - reflexivity.
  - apply sample_goog_sorted.
  - intros a b. apply sample_vendor_serves_slices.
  - reflexivity.
  - right. split; discriminate.
  - reflexivity.
  - split; [reflexivity|]. vm_compute. reflexivity.
  - split; [exact H1|]. split; [exact H2|]. exists df2.
    split; [exact Hout|]. split; [exact Hidx|].
    split; apply Hloc; reflexivity.
Defined.

(** X14: a vendor answer without rows, on the first read of a key. The
    empty table is written under (ticker, source). If no live quote applies,
    the call returns the empty table and writes it under the reference key
    too; if the end date is today and a quote is there, the call raises
    [IndexError] at [df.index[-1]] of the live overlay and writes no
    reference entry. Either way every later read of the key with caching
    enabled raises [IndexError]. *)
Theorem vendor_answer_without_rows
    (web_DataReader : string -> string -> date -> date -> result DataFrame)
    (fetch_live_quote : string -> option (date * scalar)) (_today : date)
    (self : DataReader) (ticker source : string) (stop : option date) (w : world) :
  enable_cache self = true ->
  source <> "reference" ->
  files w !! _market_data_filename source ticker = None ->
  files w !! _market_data_filename "reference" ticker = None ->
  rbind (web_DataReader ticker source origin (end_or_today _today stop)) normalize = Ok [] ->
  let e := end_or_today _today stop in
  let out := read web_DataReader fetch_live_quote _today self ticker source stop w in
  files out.2 !! _market_data_filename source ticker = Some [] /\
  (e <> _today \/ fetch_live_quote ticker = None ->
     out.1 = Ok [] /\ files out.2 !! _market_data_filename "reference" ticker = Some []) /\
  (e = _today -> is_Some (fetch_live_quote ticker) ->
     out.1 = Raise IndexError /\
     files out.2 !! _market_data_filename "reference" ticker = None) /\
  forall web' quote' today' (self' : DataReader) (stop' : option date),
    enable_cache self' = true ->
    (read web' quote' today' self' ticker source stop' out.2).1 = Raise IndexError.
Proof.
  intros Hen Hsrc Hraw Href Hweb e out.
  assert (Hstep : _read_raw_data web_DataReader self ticker source origin e w
                  = (Ok [], log (EvFetch ticker source origin e) w)).
  { rewrite read_raw_data_no_entry by assumption. unfold _fetch_web_data.
    fold e in Hweb. now rewrite Hweb. }
  assert (Hfile : files out.2 !! _market_data_filename source ticker = Some []).
  { subst out. eapply read_persists_raw; eassumption. }
  split; [exact Hfile|]. split; [|split].
  - intros Hidle.
    destruct (first_read web_DataReader fetch_live_quote _today self ticker source stop w
                [] Hen Hsrc Hraw Href Hweb Hidle) as (w' & Hread & Hf).
    subst out. rewrite Hread. cbn [fst snd]. split; [reflexivity|].
    rewrite Hf. apply lookup_insert_eq.
  - intros Htoday [[qd qv] Hq].
    assert (Hwork : exists w2,
              working_table web_DataReader self ticker source e w = (Ok [], w2) /\
              files w2 = <[_market_data_filename source ticker := []]> (files w)).
    { destruct (use_reference self) eqn:Huse.
      - eexists. split; [eapply working_table_no_reference; eassumption | reflexivity].
      - eexists. split; [eapply working_table_plain; eassumption | reflexivity]. }
    destruct Hwork as (w2 & Hwork & Hf2).
    assert (Hlive : _update_with_live_quote fetch_live_quote ticker [] w2
                    = (Raise IndexError, log (EvQuote ticker) w2)).
    { unfold _update_with_live_quote. now rewrite Hq. }
    subst out. rewrite read_steps. fold e.
    rewrite (bind_ok _ _ _ _ _ Hwork), decide_True by assumption.
    rewrite (bind_raise _ _ _ _ _ Hlive). cbn [fst snd log files].
    split; [reflexivity|].
    rewrite Hf2, lookup_insert_ne by now apply filename_reference_ne. exact Href.
  - intros web' quote' today' self' stop' Hen'.
    now rewrite (read_on_empty_cache web' quote' today' self' ticker source stop' out.2).
Qed.

Lemma vendor_answer_without_rows_witness :
  let out := read Sample.vendor (Sample.quote_on "1925-12-31" 1) "1925-12-31"
               Sample.caching "GOOG" "yahoo" None Sample.empty_world in
  out.1 = Raise IndexError /\
  files out.2 !! "GOOG.yahoo.csv" = Some [] /\
  files out.2 !! "GOOG.csv" = None.
Proof.
  cbv zeta.
  destruct (vendor_answer_without_rows Sample.vendor (Sample.quote_on "1925-12-31" 1)
              "1925-12-31" Sample.caching "GOOG" "yahoo" None Sample.empty_world)
    as (Hraw & _ & Hquote & _);
    [reflexivity | discriminate | reflexivity | reflexivity | reflexivity |].
  destruct Hquote as [Hres Href]; [reflexivity | eexists; reflexivity |].
  split; [exact Hres|]. split; [exact Hraw | exact Href].
Defined.
